(** * nseEventBoard: the bulk fetcher and the record viewers

    A shallow embedding of [fetch_all_data.py] and of the viewer scripts
    [view_announcements_data.py], [view_latest_data.py] and
    [view_crd_data.py], followed by the properties of their pagination
    loop, their persistence guard, their cell formatting, their filters,
    their CSV export and their summary index.

    Conventions of the embedding:
    - a Python value that came out of [json.load] / [response.json()] is a
      [pyval]; JSON numbers are integers (floats are left out);
    - a Python [str] is a [string] whose characters are the code points
      below 256, so that [len], iteration, [lower] and [in] work per
      character;
    - a Python [dict] is an association list in insertion order with
      pairwise different keys;
    - console output ([print]) and [time.sleep] are not modelled. *)

From Stdlib Require Import ssreflect ZArith Lia String Ascii List Bool DecimalString.
From stdpp Require Import base tactics option list strings numbers sorting.
Import ListNotations.
Set Warnings "-rewrite-rw".
Open Scope string_scope.
Open Scope list_scope.
Open Scope Z_scope.

(** ** Python values and the built-ins the scripts use *)

Module Py.

#[warnings="-register-all"]
Inductive pyval : Type :=
| PNone
| PBool (b : bool)
| PInt (z : Z)
| PStr (s : string)
| PList (l : list pyval)
| PDict (d : list (string * pyval)).

(** A dict with values in [V]; the JSON objects are [dict pyval]. *)
Definition dict (V : Type) : Type := list (string * V).

Definition record : Type := dict pyval.

Section Dict.
Context {V : Type}.

(** [d.get(k)] as an option; [None] when the key is absent. *)
Fixpoint dict_get (k : string) (d : dict V) : option V :=
  match d with
  | [] => None
  | (k', v) :: d' => if String.eqb k k' then Some v else dict_get k d'
  end.

(** [d.get(k, dflt)] *)
Definition dict_get_default (k : string) (dflt : V) (d : dict V) : V :=
  default dflt (dict_get k d).

(** [d[k] = v]: an existing key keeps its position, a new key goes last. *)
Fixpoint dict_set (k : string) (v : V) (d : dict V) : dict V :=
  match d with
  | [] => [(k, v)]
  | (k', v') :: d' =>
      if String.eqb k k' then (k, v) :: d' else (k', v') :: dict_set k v d'
  end.

(** [d.keys()] *)
Definition dict_keys (d : dict V) : list string := d.*1.

(** [d.values()] *)
Definition dict_values (d : dict V) : list V := d.*2.
End Dict.

(** Truth value of a value in a condition ([if value], [not value]). *)
Definition truthy (v : pyval) : bool :=
  match v with
  | PNone => false
  | PBool b => b
  | PInt z => negb (z =? 0)
  | PStr s => negb (String.eqb s "")
  | PList l => match l with [] => false | _ => true end
  | PDict d => match d with [] => false | _ => true end
  end.

(** [o == s] for the result [o] of a [dict.get] and a string literal [s]:
    only a [str] equals a [str]. *)
Definition eq_str (o : option pyval) (s : string) : bool :=
  match o with
  | Some (PStr t) => String.eqb t s
  | _ => false
  end.

(** *** [str.lower] *)

Definition lower_char (c : ascii) : ascii :=
  let n := N_of_ascii c in
  if ((65 <=? n) && (n <=? 90))%N
     || ((192 <=? n) && (n <=? 222) && negb (n =? 215))%N
  then ascii_of_N (n + 32)
  else c.

Fixpoint lower (s : string) : string :=
  match s with
  | EmptyString => EmptyString
  | String c s' => String (lower_char c) (lower s')
  end.

(** *** [needle in hay] on strings *)

Fixpoint startswith (p s : string) : bool :=
  match p, s with
  | EmptyString, _ => true
  | String a p', String b s' => Ascii.eqb a b && startswith p' s'
  | String _ _, EmptyString => false
  end.

Fixpoint contains (needle hay : string) : bool :=
  startswith needle hay
  || match hay with
     | EmptyString => false
     | String _ hay' => contains needle hay'
     end.

(** *** [str] and [repr] *)

Definition hex_digit (n : N) : ascii :=
  if (n <? 10)%N then ascii_of_N (48 + n) else ascii_of_N (87 + n).

Definition printable (c : ascii) : bool :=
  let n := N_of_ascii c in
  ((32 <=? n) && (n <? 127))%N || ((161 <=? n) && negb (n =? 173))%N.

Definition backslash : ascii := ascii_of_N 92.
Definition squote : ascii := ascii_of_N 39.
Definition dquote : ascii := ascii_of_N 34.

(** The escape of one character inside a [repr] whose quote is [q]. *)
Definition repr_char (q c : ascii) : string :=
  if Ascii.eqb c backslash then String backslash (String backslash EmptyString)
  else if Ascii.eqb c q then String backslash (String c EmptyString)
  else if Ascii.eqb c (ascii_of_N 10) then String backslash "n"
  else if Ascii.eqb c (ascii_of_N 13) then String backslash "r"
  else if Ascii.eqb c (ascii_of_N 9) then String backslash "t"
  else if printable c then String c EmptyString
  else
    let n := N_of_ascii c in
    String backslash
      (String "x"%char
         (String (hex_digit (n / 16)) (String (hex_digit (n mod 16)) EmptyString))).

Fixpoint repr_chars (q : ascii) (s : string) : string :=
  match s with
  | EmptyString => EmptyString
  | String c s' => repr_char q c +:+ repr_chars q s'
  end.

Fixpoint has_char (c : ascii) (s : string) : bool :=
  match s with
  | EmptyString => false
  | String a s' => Ascii.eqb a c || has_char c s'
  end.

(** [repr(s)]: single quotes, unless [s] has a single quote and no double
    quote. *)
Definition repr_str (s : string) : string :=
  let q := if has_char squote s && negb (has_char dquote s)
           then dquote else squote in
  String q (repr_chars q s) +:+ String q EmptyString.

Definition str_int (z : Z) : string := NilZero.string_of_int (Z.to_int z).

Fixpoint repr (v : pyval) : string :=
  match v with
  | PNone => "None"
  | PBool true => "True"
  | PBool false => "False"
  | PInt z => str_int z
  | PStr s => repr_str s
  | PList l => "[" +:+ String.concat ", " (map repr l) +:+ "]"
  | PDict d =>
      "{" +:+ String.concat ", "
                (map (fun kv => repr_str (fst kv) +:+ ": " +:+ repr (snd kv)) d)
          +:+ "}"
  end.

(** [str(v)], also what an f-string field [{v}] expands to. *)
Definition str (v : pyval) : string :=
  match v with
  | PStr s => s
  | _ => repr v
  end.

(** [page <= total_pages] for an [int] on the left; [None] is the
    [TypeError] of an unorderable right-hand side. *)
Definition int_le (n : Z) (v : pyval) : option bool :=
  match v with
  | PInt m => Some (n <=? m)
  | PBool b => Some (n <=? (if b then 1 else 0))
  | _ => None
  end.

(** [list.extend(v)]: the items an iteration over [v] yields; [None] is
    the [TypeError] of a value that is not iterable. *)
Definition iter (v : pyval) : option (list pyval) :=
  match v with
  | PList l => Some l
  | PDict d => Some (map PStr (dict_keys d))
  | PStr s => Some (map (fun c => PStr (String c EmptyString)) (list_ascii_of_string s))
  | _ => None
  end.

End Py.


Import Py.

(** ** Sets and counting dicts keyed by values

    The keys of a [dict] and the members of a [set] must be hashable: a
    [list] or a [dict] used as one raises [TypeError]. Two keys are the
    same when [==] holds, so [True] and [1] are one key. A set or a counting
    dict is kept as a list in insertion order without two equal keys. *)

Module Hashed.

Definition hashable (v : pyval) : bool :=
  match v with
  | PList _ | PDict _ => false
  | _ => true
  end.

(** [a == b] on hashable values. *)
Definition key_eq (a b : pyval) : bool :=
  match a, b with
  | PNone, PNone => true
  | PBool x, PBool y => Bool.eqb x y
  | PBool x, PInt y => (if x then 1 else 0) =? y
  | PInt x, PBool y => x =? (if y then 1 else 0)
  | PInt x, PInt y => x =? y
  | PStr x, PStr y => String.eqb x y
  | _, _ => false
  end.

(** [s.add(v)]; [None] is the [TypeError] of an unhashable [v]. *)
Definition set_add (v : pyval) (s : list pyval) : option (list pyval) :=
  if hashable v
  then Some (if existsb (key_eq v) s then s else s ++ [v])
  else None.

(** [d.get(k, 0)] on a counting dict with a hashable [k]. *)
Fixpoint count_get (k : pyval) (d : list (pyval * Z)) : Z :=
  match d with
  | [] => 0
  | (k', n) :: d' => if key_eq k k' then n else count_get k d'
  end.

(** [d[k] = n]: the entry of an equal key is updated in place and keeps
    its key; a new key goes last. *)
Fixpoint count_set (k : pyval) (n : Z) (d : list (pyval * Z)) : list (pyval * Z) :=
  match d with
  | [] => [(k, n)]
  | (k', n') :: d' =>
      if key_eq k k' then (k', n) :: d' else (k', n') :: count_set k n d'
  end.

(** [d[k] = d.get(k, 0) + 1]; [None] is the [TypeError] of an unhashable
    [k]. *)
Definition count_up (k : pyval) (d : list (pyval * Z)) : option (list (pyval * Z)) :=
  if hashable k then Some (count_set k (count_get k d + 1) d) else None.

(** Where [x] goes in a list already in descending order of count: behind
    every entry whose count is not smaller. *)
Fixpoint insert_desc {K} (x : K * Z) (l : list (K * Z)) : list (K * Z) :=
  match l with
  | [] => [x]
  | y :: l' => if y.2 <? x.2 then x :: y :: l' else y :: insert_desc x l'
  end.

(** [sorted(d.items(), key=lambda x: x[1], reverse=True)]: descending by
    count, entries of equal count in their original order. *)
Definition sorted_desc {K} (items : list (K * Z)) : list (K * Z) :=
  fold_left (fun acc x => insert_desc x acc) items [].

End Hashed.

(** ** The pandas calls of the export menu entry

    [pandas.DataFrame(list of dicts)], [df.columns], [df[col]],
    [Series.apply], [Series.any] and [df.to_csv(path, index=False)] as the
    library documents them (the columns of a frame built from dicts follow
    insertion order from pandas 0.25 on). A frame is kept column by
    column; a cell is [None] where the record has no such key (pandas'
    NaN). The text encoding of the CSV file (quoting, number formats, byte
    order mark) is left out: the written file is its header and its rows
    of cells. *)

Module Pandas.

Definition cell : Type := option pyval.

Record frame : Type := {
  nrows : nat;
  series : list (string * list cell)
}.






(** [df[col] = values] for an existing column. *)
Definition setitem (df : frame) (col : string) (values : list cell) : frame :=
  {| nrows := nrows df; series := dict_set col values (series df) |}.



End Pandas.

(** ** view_announcements_data.py *)

Module ViewAnnouncements.

(** [format_cell(value)]. The result is a [pyval]: the last branch of the
    [text] case returns [value['text']] as it is. *)
Definition format_cell (value : pyval) : pyval :=
  match value with
  | PDict d =>
      match dict_get "text" d with
      | Some text =>
          if eq_str (dict_get "type" d) "pdf" then PStr (str text +:+ " [PDF]")
          else if eq_str (dict_get "type" d) "xbrl" then PStr (str text +:+ " [XBRL]")
          else text
      | None => PStr (str value)
      end
  | _ => if truthy value then PStr (str value) else PStr ""
  end.

(** [isinstance(v, str) and keyword.lower() in v.lower()] *)
Definition str_matches (keyword : string) (v : pyval) : bool :=
  match v with
  | PStr s => contains (lower keyword) (lower s)
  | _ => false
  end.

Definition filter_by_subject (data : list record) (keyword : string) : list record :=
  fold_left
    (fun filtered announcement =>
       let subject := dict_get_default "SUBJECT" (PStr "") announcement in
       if str_matches keyword subject then filtered ++ [announcement] else filtered)
    data [].


(** [x.get('text', x) if isinstance(x, dict) else x] on a cell. *)
Definition flatten_cell (x : Pandas.cell) : Pandas.cell :=
  match x with
  | Some (PDict d) => Some (dict_get_default "text" (PDict d) d)
  | _ => x
  end.




Definition filter_by_company (data : list record) (keyword : string) : list record :=
  fold_left
    (fun filtered announcement =>
       let company := dict_get_default "COMPANY NAME" (PStr "") announcement in
       let symbol := dict_get_default "SYMBOL" (PStr "") announcement in
       let symbol :=
         match symbol with
         | PDict d => dict_get_default "text" (PStr "") d
         | _ => symbol
         end in
       if str_matches keyword company || str_matches keyword symbol
       then filtered ++ [announcement] else filtered)
    data [].

(** [isinstance(v, str) and date_str in v] *)
Definition str_has (date_str : string) (v : pyval) : bool :=
  match v with
  | PStr s => contains date_str s
  | _ => false
  end.

Definition filter_by_date (data : list record) (date_str : string) : list record :=
  fold_left
    (fun filtered announcement =>
       let date := dict_get_default "BROADCAST DATE/TIME" (PStr "") announcement in
       if str_has date_str date then filtered ++ [announcement] else filtered)
    data [].

(** What [display_data_table] hands to [tabulate], and the count line it
    prints after the table (the numbers of "showing m of n"). *)
Record table : Type := {
  headers : list string;
  table_data : list (list pyval);
  count_info : option (Z * nat)
}.

(** [max_rows] as a condition: [None] and [0] are false. *)
Definition limited (max_rows : option Z) : bool :=
  match max_rows with
  | Some m => negb (m =? 0)
  | None => false
  end.

(** The [for i, row in enumerate(data)] loop, from index [i] on. *)
Fixpoint table_rows (hs : list string) (max_rows : option Z) (i : Z) (data : list record)
  : list (list pyval) :=
  match data with
  | [] => []
  | row :: data' =>
      if limited max_rows && (default 0 max_rows <=? i) then []
      else map (fun h => format_cell (dict_get_default h (PStr "") row)) hs
           :: table_rows hs max_rows (i + 1) data'
  end.

(** [display_data_table(data, max_rows)]; [None] when there is no data
    and only "No data to display" is printed. *)
Definition display_data_table (data : list record) (max_rows : option Z) : option table :=
  match data with
  | [] => None
  | first :: _ =>
      let hs := dict_keys first in
      Some {| headers := hs;
              table_data := table_rows hs max_rows 0 data;
              count_info :=
                if limited max_rows && (default 0 max_rows <? Z.of_nat (length data))
                then Some (default 0 max_rows, length data)
                else None |}
  end.

(** The [stats] dict of [get_statistics]. *)
Record stats : Type := {
  total_announcements : nat;
  unique_companies : list pyval;
  subjects : list (pyval * Z);
  has_pdf : Z;
  has_xbrl : Z
}.

(** The body of the loop of [get_statistics] for one announcement; [None]
    is a [TypeError] that leaves the function. *)
Definition count_announcement (st : stats) (announcement : record) : option stats :=
  let company := dict_get_default "COMPANY NAME" (PStr "") announcement in
  match (if truthy company
         then Hashed.set_add company (unique_companies st)
         else Some (unique_companies st)) with
  | None => None
  | Some companies =>
      let subject := dict_get_default "SUBJECT" (PStr "Unknown") announcement in
      match Hashed.count_up subject (subjects st) with
      | None => None
      | Some subjects' =>
          let pdf :=
            match dict_get_default "ATTACHMENT" (PStr "") announcement with
            | PDict attachment => eq_str (dict_get "type" attachment) "pdf"
            | _ => false
            end in
          let xbrl :=
            match dict_get_default "XBRL" (PStr "") announcement with
            | PDict x => eq_str (dict_get "type" x) "xbrl"
            | _ => false
            end in
          Some {| total_announcements := total_announcements st;
                  unique_companies := companies;
                  subjects := subjects';
                  has_pdf := if pdf then has_pdf st + 1 else has_pdf st;
                  has_xbrl := if xbrl then has_xbrl st + 1 else has_xbrl st |}
      end
  end.

Fixpoint count_announcements (st : stats) (data : list record) : option stats :=
  match data with
  | [] => Some st
  | announcement :: data' =>
      match count_announcement st announcement with
      | None => None
      | Some st' => count_announcements st' data'
      end
  end.

Definition get_statistics (data : list record) : option stats :=
  count_announcements
    {| total_announcements := length data;
       unique_companies := [];
       subjects := [];
       has_pdf := 0;
       has_xbrl := 0 |}
    data.

(** The subjects that [display_statistics] prints under "Top Announcement
    Subjects", with their counts. *)
Definition top_subjects (st : stats) : list (pyval * Z) :=
  take 15 (Hashed.sorted_desc (subjects st)).

End ViewAnnouncements.

(** ** view_latest_data.py *)

Module ViewLatest.

Definition format_cell (value : pyval) : pyval :=
  match value with
  | PDict d =>
      match dict_get "text" d with
      | Some text => text
      | None => PStr (str value)
      end
  | _ => if truthy value then PStr (str value) else PStr ""
  end.

End ViewLatest.

(** ** view_crd_data.py *)

Module ViewCrd.

Definition filter_by_company (data : list record) (keyword : string) : list record :=
  fold_left
    (fun filtered record =>
       let company := dict_get_default "COMPANY NAME" (PStr "") record in
       let company :=
         match company with
         | PDict d => dict_get_default "text" (PStr "") d
         | _ => company
         end in
       if ViewAnnouncements.str_matches keyword company
       then filtered ++ [record] else filtered)
    data [].

End ViewCrd.

(** ** fetch_all_data.py *)

Module FetchAllData.

Definition BASE_URL : string := "https://nseeventboard-production.up.railway.app".
Definition OUTPUT_DIR : string := "fetched_data".

(** What one [requests.get(url, params=params, timeout=30)] comes to. *)
Inductive reply : Type :=
| ConnectionError
    (** [requests.get] raises: no connection, timeout, ... *)
| Response (status_code : Z) (json : option pyval)
    (** a response; [json] is [None] when [response.json()] raises. *).

(** The remote source: the reply to a request for [url] with [params]. *)
Definition remote : Type := string -> dict pyval -> reply.

(** Mutable dicts live in a heap and are passed by reference. *)
Definition loc : Type := nat.

Record world : Type := {
  heap : list (dict pyval);
  requests : list (string * dict pyval);   (* the requests sent, oldest first *)
  files : list (string * pyval)            (* the files written, oldest first *)
}.

(** The dict literal [fetch_all_pages] returns. Its ['params'] entry is the
    caller's dict itself, not a copy. *)
Record dataset : Type := {
  metadata : pyval;
  total_records : Z;
  fetched_at : string;
  source : string;
  params : loc;
  data : list pyval
}.

(** Function results: a returned value, or an exception that leaves the
    function. *)
Inductive result (A : Type) : Type :=
| Returned (a : A)
| Raised.
Arguments Returned {A} a.
Arguments Raised {A}.

(** A command on the world; [None] stands for a run that has not ended
    within the given number of loop iterations. *)
Definition M (A : Type) : Type := world -> option (result A * world).

Definition ret {A} (a : A) : M A := fun w => Some (Returned a, w).

Definition bind {A B} (m : M A) (f : A -> M B) : M B :=
  fun w =>
    match m w with
    | Some (Returned a, w') => f a w'
    | Some (Raised, w') => Some (Raised, w')
    | None => None
    end.

Notation "x <- m ;; k" := (bind m (fun x => k))
  (at level 100, m at next level, right associativity).
Notation "m ;;; k" := (bind m (fun _ => k))
  (at level 100, right associativity).

Definition load (l : loc) (w : world) : dict pyval := default [] (heap w !! l).

(** [{...}]: a new dict object. *)
Definition alloc (d : dict pyval) : M loc :=
  fun w =>
    Some (Returned (length (heap w)),
          {| heap := heap w ++ [d]; requests := requests w; files := files w |}).

(** [obj[k] = v] on the dict at [l]. *)
Definition setitem (l : loc) (k : string) (v : pyval) (w : world) : world :=
  {| heap := alter (dict_set k v) l (heap w);
     requests := requests w;
     files := files w |}.

Definition send (url : string) (w : world) (l : loc) : world :=
  {| heap := heap w;
     requests := requests w ++ [(url, load l w)];
     files := files w |}.

(** The local variables of [fetch_all_pages] that the loop updates. *)
Record locals : Type := {
  page : Z;
  total_pages : pyval;
  last_metadata : pyval;
  all_data : list pyval
}.

Inductive flow : Type := Next | Break.

Section Fetch.
Variable server : remote.
Variable now : string.   (* [datetime.now().isoformat()] *)

(** One pass through the body of [while page <= total_pages]. [Break]
    covers the two [break] statements and the [except] clause. *)
Definition loop_body (endpoint : string) (params : loc) (st : locals) (w : world)
  : flow * locals * world :=
  let w := setitem params "page" (PInt (page st)) w in
  let w := setitem params "per_page" (PInt 1000) w in
  let url := BASE_URL +:+ endpoint in
  let w := send url w params in
  match server url (load params w) with
  | ConnectionError => (Break, st, w)
  | Response status_code json =>
      if negb (status_code =? 200) then (Break, st, w)
      else
        match json with
        | Some (PDict body) =>
            if negb (truthy (dict_get_default "success" PNone body)) then (Break, st, w)
            else
              let st := {| page := page st;
                           total_pages := total_pages st;
                           last_metadata := dict_get_default "metadata" (PDict []) body;
                           all_data := all_data st |} in
              match dict_get_default "pagination" (PDict []) body with
              | PDict pagination =>
                  let st := {| page := page st;
                               total_pages := dict_get_default "total_pages" (PInt 1) pagination;
                               last_metadata := last_metadata st;
                               all_data := all_data st |} in
                  match iter (dict_get_default "data" (PList []) body) with
                  | Some page_data =>
                      (Next,
                       {| page := page st + 1;
                          total_pages := total_pages st;
                          last_metadata := last_metadata st;
                          all_data := all_data st ++ page_data |},
                       w)
                  | None => (Break, st, w)
                  end
              | _ => (Break, st, w)
              end
        | _ => (Break, st, w)
        end
  end.

(** The [while] loop, for at most [fuel] tests of its condition. The test
    itself is outside the [try]: a [total_pages] that an [int] cannot be
    compared with raises out of the function. *)
Fixpoint while_loop (fuel : nat) (endpoint : string) (params : loc) (st : locals)
  : M locals :=
  fun w =>
    match fuel with
    | O => None
    | S fuel' =>
        match int_le (page st) (total_pages st) with
        | None => Some (Raised, w)
        | Some false => Some (Returned st, w)
        | Some true =>
            match loop_body endpoint params st w with
            | (Break, st', w') => Some (Returned st', w')
            | (Next, st', w') => while_loop fuel' endpoint params st' w'
            end
        end
    end.

Definition fetch_all_pages (fuel : nat) (endpoint : string) (params : option loc)
  : M dataset :=
  params <- match params with
            | None => alloc []
            | Some l => ret l
            end ;;
  st <- while_loop fuel endpoint params
          {| page := 1; total_pages := PInt 1; last_metadata := PDict []; all_data := [] |} ;;
  ret {| metadata := last_metadata st;
         total_records := Z.of_nat (length (all_data st));
         fetched_at := now;
         source := endpoint;
         params := params;
         data := all_data st |}.

(** What [json.dump] writes for a dataset: the params are read through the
    reference at that moment. *)
Definition dataset_json (w : world) (ds : dataset) : pyval :=
  PDict [("metadata", metadata ds);
         ("total_records", PInt (total_records ds));
         ("fetched_at", PStr (fetched_at ds));
         ("source", PStr (source ds));
         ("params", PDict (load (params ds) w));
         ("data", PList (data ds))].

Definition write_file (path : string) (content : pyval) : M unit :=
  fun w =>
    Some (Returned tt,
          {| heap := heap w; requests := requests w; files := files w ++ [(path, content)] |}).

Definition save_to_json (ds : dataset) (filename : string) : M unit :=
  fun w => write_file (OUTPUT_DIR +:+ "/" +:+ filename) (dataset_json w ds) w.

Definition fetch_event_calendar (fuel : nat) : M dataset :=
  ds <- fetch_all_pages fuel "/event-calendar" None ;;
  save_to_json ds "event_calendar_all.json" ;;;
  ret ds.

(** The [for market in markets] loop that [fetch_announcements] and
    [fetch_credit_rating] share, up to the endpoint and the file prefix. *)
Fixpoint fetch_markets (fuel : nat) (endpoint file_prefix : string)
    (markets : list string) (results : dict dataset) : M (dict dataset) :=
  match markets with
  | [] => ret results
  | market :: markets' =>
      q <- alloc [("market", PStr market)] ;;
      ds <- fetch_all_pages fuel endpoint (Some q) ;;
      if 0 <? total_records ds then
        save_to_json ds (file_prefix +:+ market +:+ "_all.json") ;;;
        fetch_markets fuel endpoint file_prefix markets' (dict_set market ds results)
      else
        fetch_markets fuel endpoint file_prefix markets' results
  end.

Definition fetch_announcements (fuel : nat) : M (dict dataset) :=
  fetch_markets fuel "/announcements" "announcements_" ["equity"; "sme"; "debt"; "mf"] [].

Definition fetch_crd (fuel : nat) : M dataset :=
  ds <- fetch_all_pages fuel "/crd" None ;;
  save_to_json ds "crd_all.json" ;;;
  ret ds.

Definition fetch_credit_rating (fuel : nat) : M (dict dataset) :=
  fetch_markets fuel "/credit-rating" "credit_rating_" ["equity"; "sme"] [].

End Fetch.

(** The [results] dict of [main]: each key is there or not. *)
Record results : Type := {
  event_calendar : option dataset;
  announcements : option (dict dataset);
  crd : option dataset;
  credit_rating : option (dict dataset)
}.

Module Summary.

Record entry : Type := {
  records : Z;
  file : string
}.

Record t : Type := {
  fetch_timestamp : string;
  api_url : string;
  total_files : Z;
  total_records : Z;
  datasets : dict entry
}.

(** The three statements run for one dataset: its entry, then the two
    counters. *)
Definition add (name filename : string) (n : Z) (s : t) : t :=
  {| fetch_timestamp := fetch_timestamp s;
     api_url := api_url s;
     total_files := total_files s + 1;
     total_records := total_records s + n;
     datasets := dict_set name {| records := n; file := filename |} (datasets s) |}.

Definition to_json (s : t) : pyval :=
  PDict [("fetch_timestamp", PStr (fetch_timestamp s));
         ("api_url", PStr (api_url s));
         ("total_files", PInt (total_files s));
         ("total_records", PInt (total_records s));
         ("datasets",
          PDict (map (fun ne =>
                        (ne.1, PDict [("records", PInt (records ne.2));
                                      ("file", PStr (file ne.2))]))
                     (datasets s)))].

End Summary.

Definition add_one (name : string) (ds : option dataset) (s : Summary.t) : Summary.t :=
  match ds with
  | Some d => Summary.add name (name +:+ "_all.json") (total_records d) s
  | None => s
  end.

Definition add_markets (prefix : string) (ms : option (dict dataset)) (s : Summary.t)
  : Summary.t :=
  match ms with
  | Some per_market =>
      fold_left
        (fun s md =>
           Summary.add (prefix +:+ md.1) (prefix +:+ md.1 +:+ "_all.json")
                       (total_records md.2) s)
        per_market s
  | None => s
  end.

(** The summary that [create_summary] builds and returns. *)
Definition build_summary (now : string) (r : results) : Summary.t :=
  let summary :=
    {| Summary.fetch_timestamp := now;
       Summary.api_url := BASE_URL;
       Summary.total_files := 0;
       Summary.total_records := 0;
       Summary.datasets := [] |} in
  let summary := add_one "event_calendar" (event_calendar r) summary in
  let summary := add_markets "announcements_" (announcements r) summary in
  let summary := add_one "crd" (crd r) summary in
  add_markets "credit_rating_" (credit_rating r) summary.

Definition create_summary (now : string) (r : results) : M Summary.t :=
  let summary := build_summary now r in
  write_file (OUTPUT_DIR +:+ "/" +:+ "summary.json") (Summary.to_json summary) ;;;
  ret summary.

Section Main.
Variable server : remote.
Variable now : string.

(** [sum(values)]; [None] is the [TypeError] of adding a value that is not
    a number. *)
Fixpoint values_sum (acc : Z) (values : list pyval) : option Z :=
  match values with
  | [] => Some acc
  | PInt z :: values' => values_sum (acc + z) values'
  | PBool b :: values' => values_sum (acc + (if b then 1 else 0)) values'
  | _ => None
  end.

(** The request of [check_health]: no query. *)
Definition send_health (w : world) : world :=
  {| heap := heap w;
     requests := requests w ++ [(BASE_URL +:+ "/health", [])];
     files := files w |}.

(** What [input] comes to, should it be called. *)
Inductive typed : Type :=
| Line (user_input : string)   (* the line the user types *)
| EndOfInput                   (* [EOFError] *)
| Interrupt                    (* Ctrl-C: [KeyboardInterrupt] *).

(** What the user does while [check_health] runs: Ctrl-C while the health
    request is under way, or nothing until the prompt, if there is
    one. *)
Inductive keyboard : Type :=
| InterruptsRequest
| Answers (answer : typed).

(** [check_health()]. Every [Exception] inside ends in the [except]
    clause, which returns [False]; [KeyboardInterrupt] is none and leaves
    the function. The status code of the response is not looked at. *)
Definition check_health (user : keyboard) : M bool :=
  fun w =>
    let w := send_health w in
    match user with
    | InterruptsRequest => Some (Raised, w)
    | Answers answer =>
        Some
          (match server (BASE_URL +:+ "/health") [] with
           | Response _ (Some (PDict health)) =>
               match dict_get_default "monitors" (PDict []) health with
               | PDict monitors =>
                   match values_sum 0 (dict_values monitors) with
                   | Some monitors_ready =>
                       if monitors_ready =? 0 then
                         match answer with
                         | Line user_input =>
                             Returned (String.eqb (lower user_input) "y")
                         | EndOfInput => Returned false
                         | Interrupt => Raised
                         end
                       else Returned true
                   | None => Returned false
                   end
               | _ => Returned false
               end
           | _ => Returned false
           end,
           w)
    end.

(** The four fetches and the summary: the [try] block of [main]. *)
Definition fetch_everything (fuel : nat) : M Summary.t :=
  ec <- fetch_event_calendar server now fuel ;;
  an <- fetch_announcements server now fuel ;;
  c <- fetch_crd server now fuel ;;
  cr <- fetch_credit_rating server now fuel ;;
  create_summary now
    {| event_calendar := Some ec;
       announcements := Some an;
       crd := Some c;
       credit_rating := Some cr |}.

(** [create_output_dir()]. [makedirs_ok] tells whether
    [os.makedirs(OUTPUT_DIR, exist_ok=True)] succeeds; otherwise it raises
    [OSError]. *)
Definition create_output_dir (makedirs_ok : bool) : M unit :=
  fun w => Some (if makedirs_ok then Returned tt else Raised, w).

(** [main()]. [create_output_dir] and [check_health] are called outside
    the [try] block; an exception out of the block is caught and printed.
    The fetches are taken to run undisturbed: an interrupt among them,
    which [main] catches as well, is left out. *)
Definition main (makedirs_ok : bool) (user : keyboard) (fuel : nat) : M unit :=
  create_output_dir makedirs_ok ;;;
  ready <- check_health user ;;
  if ready then
    fun w =>
      match fetch_everything fuel w with
      | Some (_, w') => Some (Returned tt, w')
      | None => None
      end
  else ret tt.

End Main.

End FetchAllData.

(** ** The remote source, as the loop sees it *)

Module Source.
Import FetchAllData.

(** The query of the request for page [i], when the caller's dict was [d]:
    [params['page'] = page; params['per_page'] = 1000]. *)
Definition request_params (i : Z) (d : dict pyval) : dict pyval :=
  dict_set "per_page" (PInt 1000) (dict_set "page" (PInt i) d).

(** A reply that the loop accepts: status 200, a JSON object with a true
    [success], [total_pages] in its [pagination] and the records [recs]
    as its [data]. *)
Definition page_succeeds (total : Z) (recs : list pyval) (r : reply) : Prop :=
  exists body pagination,
    r = Response 200 (Some (PDict body))
    /\ truthy (dict_get_default "success" PNone body) = true
    /\ dict_get "pagination" body = Some (PDict pagination)
    /\ dict_get "total_pages" pagination = Some (PInt total)
    /\ dict_get "data" body = Some (PList recs).

(** A failed page: a transport error, a status other than 200, or a JSON
    object whose [success] is not true. *)
Definition page_fails (r : reply) : Prop :=
  r = ConnectionError
  \/ (exists status_code json, r = Response status_code json /\ status_code <> 200)
  \/ (exists body,
        r = Response 200 (Some (PDict body))
        /\ truthy (dict_get_default "success" PNone body) = false).

(** The world once the request for page [i] has been sent, whatever the
    reply: the dict at [l], which was [d], holds the query, and the request
    is on record. *)
Definition asked (endpoint : string) (l : loc) (i : Z) (d : dict pyval) (w : world)
  : world :=
  {| heap := <[l := request_params i d]> (heap w);
     requests := requests w ++ [(BASE_URL +:+ endpoint, request_params i d)];
     files := files w |}.

(** A reply that the loop accepts, whatever value it carries as
    [total_pages]. *)
Definition page_reports (total : pyval) (recs : list pyval) (r : reply) : Prop :=
  exists body pagination,
    r = Response 200 (Some (PDict body))
    /\ truthy (dict_get_default "success" PNone body) = true
    /\ dict_get "pagination" body = Some (PDict pagination)
    /\ dict_get "total_pages" pagination = Some total
    /\ dict_get "data" body = Some (PList recs).

End Source.

(** ** Sample sources and runs *)

Module Samples.
Import FetchAllData.

Definition event (symbol purpose : string) : pyval :=
  PDict [("SYMBOL", PStr symbol); ("PURPOSE", PStr purpose)].

Definition page_one : list pyval :=
  [event "ACME" "Dividend"; event "BOLT" "Results"; event "CORE" "Bonus"].

Definition page_two : list pyval :=
  [event "DYNE" "Results"; event "ECHO" "Dividend"].

Definition envelope (page total : Z) (recs : list pyval) : pyval :=
  PDict [("success", PBool true);
         ("metadata", PDict [("total_pages_scraped", PInt total)]);
         ("pagination", PDict [("page", PInt page); ("per_page", PInt 1000);
                               ("total_pages", PInt total)]);
         ("data", PList recs)].

(** Two pages: three records, then two. *)
Definition two_pages : remote :=
  fun url query =>
    match dict_get "page" query with
    | Some (PInt 1) => Response 200 (Some (envelope 1 2 page_one))
    | Some (PInt 2) => Response 200 (Some (envelope 2 2 page_two))
    | _ => Response 404 None
    end.

(** The same source with its second page answering 500. *)
Definition second_page_down : remote :=
  fun url query =>
    match dict_get "page" query with
    | Some (PInt 1) => Response 200 (Some (envelope 1 2 page_one))
    | _ => Response 500 None
    end.

(** A source that has nothing: zero pages, no records. *)
Definition nothing_yet : remote :=
  fun url query => Response 200 (Some (envelope 1 0 [])).

Definition records_of (i : Z) : list pyval :=
  if i =? 1 then page_one else page_two.

Definition no_world : world := {| heap := []; requests := []; files := [] |}.

(** A world in which the caller holds the dict [{'market': 'equity'}]. *)
Definition equity_world : world :=
  {| heap := [[("market", PStr "equity")]]; requests := []; files := [] |}.

Definition noon : string := "2025-12-12T12:00:00".

Definition sample_dataset (endpoint : string) (n : Z) : dataset :=
  {| metadata := PDict [];
     total_records := n;
     fetched_at := noon;
     source := endpoint;
     params := 0%nat;
     data := [] |}.

Definition sample_results : results :=
  {| event_calendar := Some (sample_dataset "/event-calendar" 120);
     announcements := Some [("equity", sample_dataset "/announcements" 40);
                            ("debt", sample_dataset "/announcements" 2)];
     crd := None;
     credit_rating := Some [("sme", sample_dataset "/credit-rating" 7)] |}.

(** A source that always announces one page more than the one asked. *)
Definition ever_more : remote :=
  fun url query =>
    match dict_get "page" query with
    | Some (PInt i) => Response 200 (Some (envelope i (i + 1) [event "ACME" "Dividend"]))
    | _ => Response 404 None
    end.

(** A source whose page count is [null]. *)
Definition null_total : remote :=
  fun url query =>
    Response 200
      (Some (PDict [("success", PBool true);
                    ("pagination", PDict [("total_pages", PNone)]);
                    ("data", PList page_one)])).

Definition health_report (monitors : dict pyval) : pyval :=
  PDict [("status", PStr "healthy"); ("ready", PBool true); ("monitors", PDict monitors)].

(** A site with a health endpoint over the two-page source. *)
Definition site (monitors : dict pyval) : remote :=
  fun url query =>
    if String.eqb url (BASE_URL +:+ "/health")
    then Response 200 (Some (health_report monitors))
    else two_pages url query.

(** A site where only the equity market has records. *)
Definition equity_only : remote :=
  fun url query =>
    match dict_get "market" query with
    | Some (PStr "equity") => two_pages url query
    | _ => nothing_yet url query
    end.

End Samples.

(** * Properties *)

(** ** Dicts, strings and loops that append *)

Section DictFacts.
Context {V : Type}.
Implicit Types (d : dict V) (k : string) (v : V).

Lemma dict_get_set_eq k v d : dict_get k (dict_set k v d) = Some v.
Proof.
  induction d as [|[k' v'] d IH]; simpl.
  - by rewrite String.eqb_refl.
  - destruct (String.eqb k k') eqn:E; simpl; rewrite ?String.eqb_refl ?E //.
Qed.

Lemma dict_get_set_ne k k' v d : k ≠ k' -> dict_get k' (dict_set k v d) = dict_get k' d.
Proof.
  intros Hne. induction d as [|[k0 v0] d IH]; simpl.
  - destruct (String.eqb k' k) eqn:E; [|done].
    apply String.eqb_eq in E. congruence.
  - destruct (String.eqb k k0) eqn:E; simpl.
    + apply String.eqb_eq in E. subst k0.
      destruct (String.eqb k' k) eqn:E'; [|done].
      apply String.eqb_eq in E'. congruence.
    + by rewrite IH.
Qed.

Lemma dict_set_set k v v' d : dict_set k v (dict_set k v' d) = dict_set k v d.
Proof.
  induction d as [|[k0 v0] d IH]; simpl.
  - by rewrite String.eqb_refl.
  - destruct (String.eqb k k0) eqn:E; simpl; rewrite ?String.eqb_refl ?E ?IH //.
Qed.

Lemma dict_get_None k d : dict_get k d = None <-> k ∉ dict_keys d.
Proof.
  unfold dict_keys. induction d as [|[k0 v0] d IH]; simpl.
  - split; [intros _; apply not_elem_of_nil | done].
  - rewrite not_elem_of_cons. destruct (String.eqb k k0) eqn:E.
    + apply String.eqb_eq in E. split; [done | intros [? _]; congruence].
    + apply String.eqb_neq in E. rewrite IH. tauto.
Qed.

Lemma dict_set_fresh k v d : k ∉ dict_keys d -> dict_set k v d = d ++ [(k, v)].
Proof.
  unfold dict_keys. induction d as [|[k0 v0] d IH]; simpl; [done|].
  rewrite not_elem_of_cons. intros [Hne Hnin].
  apply String.eqb_neq in Hne. by rewrite Hne IH.
Qed.

Lemma dict_get_app_r k d1 d2 :
  k ∉ dict_keys d1 -> dict_get k (d1 ++ d2) = dict_get k d2.
Proof.
  unfold dict_keys. induction d1 as [|[k0 v0] d1 IH]; simpl; [done|].
  rewrite not_elem_of_cons. intros [Hne Hnin].
  apply String.eqb_neq in Hne. by rewrite Hne IH.
Qed.


End DictFacts.

Lemma startswith_spec p s : startswith p s = true <-> exists b, s = p +:+ b.
Proof.
  revert s. induction p as [|a p IH]; intros s; simpl.
  - split; [intros _; by exists s | done].
  - destruct s as [|c s].
    + split; [done | intros [b Hb]; discriminate].
    + rewrite andb_true_iff IH Ascii.eqb_eq. split.
      * intros [-> [b ->]]. by exists b.
      * intros [b Hb]. injection Hb as -> ->. eauto.
Qed.

(** [needle in hay] holds exactly when [hay] can be cut around [needle]. *)
Lemma contains_spec needle hay :
  contains needle hay = true <-> exists a b, hay = a +:+ needle +:+ b.
Proof.
  induction hay as [|c hay IH].
  - cbn [contains]. rewrite orb_false_r startswith_spec. split.
    + intros [b Hb]. by exists "", b.
    + intros [a [b Hb]]. destruct a; [by exists b | discriminate].
  - cbn [contains]. rewrite orb_true_iff startswith_spec IH. split.
    + intros [[b Hb] | [a [b Hb]]].
      * by exists "", b.
      * exists (String c a), b. simpl. by rewrite Hb.
    + intros [a [b Hb]]. destruct a as [|c' a].
      * left. by exists b.
      * right. injection Hb as -> ->. eauto.
Qed.

Lemma contains_in_empty needle : contains needle "" = true <-> needle = "".
Proof.
  destruct needle; simpl; [done|]. split; discriminate.
Qed.

Lemma lower_empty s : lower s = "" <-> s = "".
Proof. destruct s; simpl; split; (done || discriminate). Qed.

(** A [for] loop that appends the items passing a test is a filter. *)
Lemma fold_append_filter {A} (p : A -> bool) (l acc : list A) :
  fold_left (fun filtered x => if p x then filtered ++ [x] else filtered) l acc
  = acc ++ List.filter p l.
Proof.
  revert acc. induction l as [|x l IH]; intros acc; simpl.
  - by rewrite app_nil_r.
  - rewrite IH. destruct (p x); [by rewrite -app_assoc | done].
Qed.

Lemma list_filter_sublist {A} (p : A -> bool) (l : list A) :
  sublist (List.filter p l) l.
Proof.
  induction l as [|x l IH]; simpl; [constructor|].
  destruct (p x); by constructor.
Qed.

Lemma list_filter_filter {A} (p : A -> bool) (l : list A) :
  List.filter p (List.filter p l) = List.filter p l.
Proof.
  induction l as [|x l IH]; simpl; [done|].
  destruct (p x) eqn:E; simpl; rewrite ?E ?IH //.
Qed.

Lemma elem_of_list_filter {A} (p : A -> bool) (l : list A) x :
  x ∈ List.filter p l <-> x ∈ l /\ p x = true.
Proof. rewrite !list_elem_of_In. apply filter_In. Qed.

(** ** Cell formatting *)

Lemma format_cell_str s : ViewAnnouncements.format_cell (PStr s) = PStr s.
Proof.
  simpl. destruct (String.eqb s "") eqn:E; simpl; [|done].
  apply String.eqb_eq in E. by subst.
Qed.

Lemma eq_str_true o s : eq_str o s = true <-> o = Some (PStr s).
Proof.
  destruct o as [[| | |t| |]|]; simpl; try (split; (done || discriminate)).
  rewrite String.eqb_eq. split; [by intros -> | by intros [= ->]].
Qed.

Lemma eq_str_false o s : eq_str o s = false <-> o <> Some (PStr s).
Proof. rewrite -eq_str_true. by destruct (eq_str o s). Qed.

(** C4: the announcement viewer's [format_cell] maps a plain string to
    itself; maps a rich cell (a dict with a [text] string) to the text
    followed by [" [PDF]"] when its [type] is ["pdf"], by [" [XBRL]"] when
    it is ["xbrl"], and to the bare text for every other or absent type;
    and maps [None] and the empty string to the empty string. *)
Theorem format_cell_display (d : dict pyval) (t : string) :
  dict_get "text" d = Some (PStr t) ->
  (forall s, ViewAnnouncements.format_cell (PStr s) = PStr s)
  /\ (dict_get "type" d = Some (PStr "pdf") ->
      ViewAnnouncements.format_cell (PDict d) = PStr (t +:+ " [PDF]"))
  /\ (dict_get "type" d = Some (PStr "xbrl") ->
      ViewAnnouncements.format_cell (PDict d) = PStr (t +:+ " [XBRL]"))
  /\ (dict_get "type" d <> Some (PStr "pdf") ->
      dict_get "type" d <> Some (PStr "xbrl") ->
      ViewAnnouncements.format_cell (PDict d) = PStr t)
  /\ ViewAnnouncements.format_cell PNone = PStr ""
  /\ ViewAnnouncements.format_cell (PStr "") = PStr "".
Proof.
  intros Htext. split; [apply format_cell_str|].
  unfold ViewAnnouncements.format_cell. rewrite Htext.
  repeat split.
  - intros ->. done.
  - intros ->. done.
  - intros Hpdf Hxbrl.
    apply eq_str_false in Hpdf, Hxbrl. by rewrite Hpdf Hxbrl.
Qed.

Lemma format_cell_display_witness :
  dict_get "text" [("text", PStr "Q3 Results"); ("type", PStr "pdf");
                   ("link", PStr "https://example.org/q3.pdf")]
  = Some (PStr "Q3 Results")
  /\ ViewAnnouncements.format_cell
       (PDict [("text", PStr "Q3 Results"); ("type", PStr "pdf");
               ("link", PStr "https://example.org/q3.pdf")])
     = PStr "Q3 Results [PDF]".
Proof.
  split; [reflexivity|].
  apply (format_cell_display
           [("text", PStr "Q3 Results"); ("type", PStr "pdf");
            ("link", PStr "https://example.org/q3.pdf")]
           "Q3 Results" eq_refl).
  reflexivity.
Defined.



(** ** Filters *)

Lemma filter_by_subject_filter data keyword :
  ViewAnnouncements.filter_by_subject data keyword
  = List.filter
      (fun r => ViewAnnouncements.str_matches keyword
                  (dict_get_default "SUBJECT" (PStr "") r))
      data.
Proof. unfold ViewAnnouncements.filter_by_subject. by rewrite fold_append_filter. Qed.

Lemma filter_by_company_filter data keyword :
  ViewCrd.filter_by_company data keyword
  = List.filter
      (fun r => ViewAnnouncements.str_matches keyword
                  match dict_get_default "COMPANY NAME" (PStr "") r with
                  | PDict d => dict_get_default "text" (PStr "") d
                  | _ => dict_get_default "COMPANY NAME" (PStr "") r
                  end)
      data.
Proof.
  unfold ViewCrd.filter_by_company.
  exact (fold_append_filter
           (fun r => ViewAnnouncements.str_matches keyword
                       match dict_get_default "COMPANY NAME" (PStr "") r with
                       | PDict d => dict_get_default "text" (PStr "") d
                       | _ => dict_get_default "COMPANY NAME" (PStr "") r
                       end)
           data []).
Qed.

Lemma str_matches_spec keyword v :
  ViewAnnouncements.str_matches keyword v = true
  <-> exists s, v = PStr s /\ exists a b, lower s = a +:+ lower keyword +:+ b.
Proof.
  destruct v as [| | |s| |]; simpl;
    try (split; [discriminate | by intros (? & ? & _)]).
  rewrite contains_spec. split.
  - intros H. by exists s.
  - by intros (? & [= <-] & H).
Qed.

(** C6, as stated, fails: with the empty keyword a record without the
    field is kept by [filter_by_subject], and [filter_by_company] of the
    CRD viewer keeps a record whose field is a rich cell. *)
Lemma filter_keeps_record_without_field :
  dict_get "SUBJECT" ([("SYMBOL", PStr "ACME")] : record) = None
  /\ ViewAnnouncements.filter_by_subject [[("SYMBOL", PStr "ACME")]] ""
     = [[("SYMBOL", PStr "ACME")]]
  /\ ViewCrd.filter_by_company
       [[("COMPANY NAME", PDict [("text", PStr "Acme Ltd"); ("link", PStr "/acme")])]]
       "acme"
     = [[("COMPANY NAME", PDict [("text", PStr "Acme Ltd"); ("link", PStr "/acme")])]].
Proof. repeat split. Qed.

(** C6, amended: [filter_by_subject] keeps exactly the records whose
    [SUBJECT] value, taken as the empty string when the record has no such
    field, is a string (which is its own display form) that contains the
    keyword when both are lowercased. A record whose [SUBJECT] is not a
    string is never kept; a record without [SUBJECT] is kept exactly when
    the keyword is empty. [filter_by_company] of the CRD viewer does the
    same on [COMPANY NAME], after replacing a rich cell by its [text]. *)
Theorem filter_keeps_matching_strings (data : list record) (keyword : string) :
  (forall r,
      r ∈ ViewAnnouncements.filter_by_subject data keyword
      <-> r ∈ data
          /\ exists s, dict_get_default "SUBJECT" (PStr "") r = PStr s
                       /\ ViewAnnouncements.format_cell (PStr s) = PStr s
                       /\ exists a b, lower s = a +:+ lower keyword +:+ b)
  /\ (forall r v,
         dict_get "SUBJECT" r = Some v -> (forall s, v <> PStr s) ->
         r ∉ ViewAnnouncements.filter_by_subject data keyword)
  /\ (forall r,
         dict_get "SUBJECT" r = None -> r ∈ data ->
         (r ∈ ViewAnnouncements.filter_by_subject data keyword <-> keyword = ""))
  /\ (forall r,
         r ∈ ViewCrd.filter_by_company data keyword
         <-> r ∈ data
             /\ exists s,
                  (dict_get_default "COMPANY NAME" (PStr "") r = PStr s
                   \/ exists d,
                        dict_get_default "COMPANY NAME" (PStr "") r = PDict d
                        /\ dict_get_default "text" (PStr "") d = PStr s)
                  /\ exists a b, lower s = a +:+ lower keyword +:+ b).
Proof.
  rewrite filter_by_subject_filter filter_by_company_filter.
  split; [|split; [|split]].
  - intros r. rewrite elem_of_list_filter str_matches_spec. split.
    + intros (Hr & s & Hs & Hsub). split; [done|].
      exists s. by rewrite format_cell_str.
    + intros (Hr & s & Hs & _ & Hsub). eauto.
  - intros r v Hv Hns. rewrite elem_of_list_filter str_matches_spec.
    unfold dict_get_default. rewrite Hv. simpl.
    intros (_ & s & -> & _). by eapply Hns.
  - intros r Hnone Hr. rewrite elem_of_list_filter.
    unfold dict_get_default. rewrite Hnone. simpl.
    rewrite contains_in_empty lower_empty. tauto.
  - intros r. rewrite elem_of_list_filter str_matches_spec. split.
    + intros (Hr & s & Hs & Hsub). split; [done|]. exists s. split; [|done].
      destruct (dict_get_default "COMPANY NAME" (PStr "") r) as [| | | | |d]; eauto.
    + intros (Hr & s & [Hs | (d & Hd & Hs)] & Hsub); split; try done; exists s.
      * by rewrite Hs.
      * by rewrite Hd.
Qed.

(** C7: the result of [filter_by_subject] is a subsequence of its input
    (so every record of it occurs in the input, in the same relative
    order), and filtering the result again with the same keyword gives the
    result back. *)
Theorem filter_by_subject_sublist_idempotent (data : list record) (keyword : string) :
  sublist (ViewAnnouncements.filter_by_subject data keyword) data
  /\ (forall r, r ∈ ViewAnnouncements.filter_by_subject data keyword -> r ∈ data)
  /\ ViewAnnouncements.filter_by_subject
       (ViewAnnouncements.filter_by_subject data keyword) keyword
     = ViewAnnouncements.filter_by_subject data keyword.
Proof.
  rewrite !filter_by_subject_filter. split; [|split].
  - apply list_filter_sublist.
  - intros r. rewrite elem_of_list_filter. tauto.
  - apply list_filter_filter.
Qed.

(** ** CSV export *)















(** ** The summary index *)

Import FetchAllData Source.

Lemma append_nil_l (b : string) : "" +:+ b = b.
Proof. reflexivity. Qed.

Lemma append_cons (x : ascii) (a b : string) : String x a +:+ b = String x (a +:+ b).
Proof. reflexivity. Qed.

Lemma append_assoc (a b c : string) : (a +:+ b) +:+ c = a +:+ b +:+ c.
Proof.
  induction a as [|x a IH]; rewrite ?append_nil_l ?append_cons; [done | by f_equal].
Qed.

Lemma append_inj_r (p a b : string) : p +:+ a = p +:+ b -> a = b.
Proof.
  induction p as [|x p IH]; rewrite ?append_nil_l ?append_cons; [done|].
  intros [= H]. auto.
Qed.

(** Adding datasets under names that are new and pairwise different
    appends their entries and adds up the two counters. *)
Lemma summary_add_all (items : list (string * Z)) (s : Summary.t) :
  NoDup (dict_keys (Summary.datasets s) ++ items.*1) ->
  fold_left (fun s it => Summary.add it.1 (it.1 +:+ "_all.json") it.2 s) items s
  = {| Summary.fetch_timestamp := Summary.fetch_timestamp s;
       Summary.api_url := Summary.api_url s;
       Summary.total_files := Summary.total_files s + Z.of_nat (length items);
       Summary.total_records := Summary.total_records s + fold_right Z.add 0 (items.*2);
       Summary.datasets :=
         Summary.datasets s
         ++ map (fun it => (it.1, {| Summary.records := it.2;
                                     Summary.file := it.1 +:+ "_all.json" |}))
                items |}.
Proof.
  revert s. induction items as [|[name n] items IH]; intros s Hnd.
  - destruct s. cbn. by rewrite !Z.add_0_r app_nil_r.
  - cbn [fold_left fst snd]. rewrite IH.
    + unfold Summary.add. cbn [Summary.datasets].
      cbn [fmap list_fmap fst] in Hnd.
      apply list.NoDup_app in Hnd as (H1 & Hdisj & H2).
      rewrite dict_set_fresh.
      { intros Hin. apply (Hdisj name Hin). left. }
      unfold dict_keys. rewrite fmap_app -app_assoc. cbn.
      apply list.NoDup_app. split; [done|]. split; [|done].
      apply Hdisj.
    + unfold Summary.add. cbn [Summary.datasets Summary.fetch_timestamp
        Summary.api_url Summary.total_files Summary.total_records].
      cbn [fmap list_fmap fst] in Hnd.
      apply list.NoDup_app in Hnd as (H1 & Hdisj & H2).
      rewrite dict_set_fresh.
      { intros Hin. apply (Hdisj name Hin). left. }
      f_equal.
      * cbn [length]. lia.
      * cbn. lia.
      * by rewrite -app_assoc.
Qed.

Lemma add_one_fold name ds s :
  add_one name ds s
  = fold_left (fun s it => Summary.add it.1 (it.1 +:+ "_all.json") it.2 s)
      (match ds with Some d => [(name, total_records d)] | None => [] end) s.
Proof. by destruct ds. Qed.

Lemma add_markets_fold prefix ms s :
  add_markets prefix ms s
  = fold_left (fun s it => Summary.add it.1 (it.1 +:+ "_all.json") it.2 s)
      (match ms with
       | Some per_market => map (fun md => (prefix +:+ md.1, total_records md.2)) per_market
       | None => []
       end) s.
Proof.
  destruct ms as [per_market|]; [|done]. unfold add_markets.
  revert s. induction per_market as [|[market d] per_market IH]; intros s; [done|].
  cbn [fold_left map fst snd]. by rewrite IH append_assoc.
Qed.

Lemma prefixed_NoDup (prefix : string) (ks : list string) :
  NoDup ks -> NoDup (map (String.append prefix) ks).
Proof.
  intros Hnd. apply NoDup_fmap_2; [|done].
  intros a b. apply append_inj_r.
Qed.

(** The names that [create_summary] gives to the datasets of a run are
    pairwise different. *)
Lemma summary_names_NoDup (ec cr : list string) (an crt : list string) :
  (forall x, x ∈ ec -> x = "event_calendar") -> NoDup ec ->
  (forall x, x ∈ cr -> x = "crd") -> NoDup cr ->
  NoDup an -> NoDup crt ->
  NoDup (ec ++ map (String.append "announcements_") an
            ++ cr ++ map (String.append "credit_rating_") crt).
Proof.
  intros Hec Nec Hcr Ncr Nan Ncrt.
  repeat (apply list.NoDup_app; split; [|split]);
    auto using prefixed_NoDup.
  - intros x ->%Hec Hin.
    repeat (apply elem_of_app in Hin as [Hin|Hin]).
    + apply list_elem_of_fmap in Hin as (y & Hy & _). discriminate Hy.
    + by apply Hcr in Hin.
    + apply list_elem_of_fmap in Hin as (y & Hy & _). discriminate Hy.
  - intros x (y & -> & _)%list_elem_of_fmap Hin.
    repeat (apply elem_of_app in Hin as [Hin|Hin]).
    + apply Hcr in Hin. discriminate Hin.
    + apply list_elem_of_fmap in Hin as (z & Hz & _). discriminate Hz.
  - intros x ->%Hcr Hin.
    apply list_elem_of_fmap in Hin as (y & Hy & _). discriminate Hy.
Qed.

Lemma prefixed_keys {V} (prefix : string) (ms : dict V) :
  (map (fun md => (prefix +:+ md.1, md.2)) ms).*1
  = map (String.append prefix) (dict_keys ms).
Proof.
  unfold dict_keys. induction ms as [|[k v] ms IH]; [done|].
  cbn [map fmap list_fmap fst snd] in *. by rewrite IH.
Qed.

(** C9: for the datasets of one run (the per-market mappings having
    pairwise different keys, as every dict has), the summary that
    [create_summary] writes and returns has exactly one entry per dataset
    present in the input, under the dataset's name and in input order, and
    none for an absent one; each entry carries its dataset's record count
    and file name; [total_files] is the number of entries and
    [total_records] the sum of the entries' record counts. *)
Theorem create_summary_entries (now : string) (r : results) (w : world) :
  (forall ms, announcements r = Some ms -> NoDup (dict_keys ms)) ->
  (forall ms, credit_rating r = Some ms -> NoDup (dict_keys ms)) ->
  let one (name : string) (o : option dataset) :=
    match o with Some d => [(name, d)] | None => [] end in
  let per (prefix : string) (o : option (dict dataset)) :=
    match o with
    | Some ms => map (fun md => (prefix +:+ md.1, md.2)) ms
    | None => []
    end in
  let present :=
    one "event_calendar" (event_calendar r) ++ per "announcements_" (announcements r)
    ++ one "crd" (crd r) ++ per "credit_rating_" (credit_rating r) in
  exists s w',
    create_summary now r w = Some (Returned s, w')
    /\ files w' = files w ++ [("fetched_data/summary.json", Summary.to_json s)]
    /\ dict_keys (Summary.datasets s) = present.*1
    /\ NoDup (dict_keys (Summary.datasets s))
    /\ map Summary.records (dict_values (Summary.datasets s))
       = map total_records (present.*2)
    /\ map Summary.file (dict_values (Summary.datasets s))
       = map (fun name => name +:+ "_all.json") (present.*1)
    /\ Summary.total_files s = Z.of_nat (length (Summary.datasets s))
    /\ Summary.total_records s
       = fold_right Z.add 0 (map Summary.records (dict_values (Summary.datasets s))).
Proof.
  intros Han Hcr one per present.
  eexists (build_summary now r), _.
  split; [reflexivity|]. split; [reflexivity|].
  assert (NoDup (present.*1)) as Hnd.
  { unfold present, one, per. rewrite !fmap_app.
    pose proof (summary_names_NoDup
                  (match event_calendar r with Some _ => ["event_calendar"] | None => [] end)
                  (match crd r with Some _ => ["crd"] | None => [] end)
                  (match announcements r with Some ms => dict_keys ms | None => [] end)
                  (match credit_rating r with Some ms => dict_keys ms | None => [] end))
      as H.
    destruct (event_calendar r), (crd r), (announcements r) as [an|],
      (credit_rating r) as [crt|];
      rewrite ?prefixed_keys;
      apply H;
      try (intros x Hx; by (apply list_elem_of_singleton in Hx || apply elem_of_nil in Hx));
      try apply NoDup_singleton; try apply NoDup_nil_2; auto. }
  assert (build_summary now r
          = fold_left (fun s it => Summary.add it.1 (it.1 +:+ "_all.json") it.2 s)
              (map (fun nd => (nd.1, total_records nd.2)) present)
              {| Summary.fetch_timestamp := now;
                 Summary.api_url := BASE_URL;
                 Summary.total_files := 0;
                 Summary.total_records := 0;
                 Summary.datasets := [] |}) as ->.
  { unfold build_summary, present, one, per.
    rewrite !map_app !fold_left_app.
    rewrite !add_one_fold !add_markets_fold.
    destruct (event_calendar r), (crd r), (announcements r), (credit_rating r);
      cbn [map fst snd]; rewrite ?map_map; reflexivity. }
  rewrite summary_add_all.
  { cbn [Summary.datasets dict_keys fmap list_fmap app].
    by rewrite -list_fmap_compose. }
  cbn [Summary.datasets Summary.total_files Summary.total_records app].
  unfold dict_keys, dict_values.
  clearbody present. clear -Hnd.
  match goal with |- ?keys = _ /\ _ => assert (keys = present.*1) as Hkeys end.
  { clear. induction present as [|[name d] present IH]; [done|]. cbn in *. by f_equal. }
  split; [done|]. split; [by rewrite Hkeys|].
  clear.
  repeat split;
    (induction present as [|[name d] present IH]; [done|]; cbn in *; try lia;
     by f_equal).
Qed.

Lemma create_summary_entries_witness :
  exists s w',
    create_summary Samples.noon Samples.sample_results Samples.no_world
    = Some (Returned s, w')
    /\ dict_keys (Summary.datasets s)
       = ["event_calendar"; "announcements_equity"; "announcements_debt";
          "credit_rating_sme"]
    /\ map Summary.records (dict_values (Summary.datasets s)) = [120; 40; 2; 7].
Proof.
  assert (forall ms, announcements Samples.sample_results = Some ms -> NoDup (dict_keys ms))
    as Han.
  { intros ms [= <-]. apply (bool_decide_unpack _). vm_compute. exact I. }
  assert (forall ms, credit_rating Samples.sample_results = Some ms -> NoDup (dict_keys ms))
    as Hcr.
  { intros ms [= <-]. apply (bool_decide_unpack _). vm_compute. exact I. }
  destruct (create_summary_entries Samples.noon Samples.sample_results Samples.no_world
              Han Hcr)
    as (s & w' & Hrun & _ & Hkeys & _ & Hrecords & _).
  exists s, w'. split; [exact Hrun|]. split; [exact Hkeys | exact Hrecords].
Defined.


(** ** The pagination loop *)

Lemma dict_set_swap {V} (k1 k2 : string) (v v' w : V) (d : dict V) :
  k1 <> k2 ->
  dict_set k1 v (dict_set k2 w (dict_set k1 v' d)) = dict_set k2 w (dict_set k1 v d).
Proof.
  intros Hne.
  assert (String.eqb k2 k1 = false) as E21 by (apply String.eqb_neq; congruence).
  assert (String.eqb k1 k2 = false) as E12 by by apply String.eqb_neq.
  induction d as [|[k x] d IH]; cbn [dict_set].
  - rewrite E21. cbn [dict_set]. by rewrite String.eqb_refl.
  - destruct (String.eqb k1 k) eqn:E1.
    + apply String.eqb_eq in E1. subst k. cbn [dict_set].
      rewrite E21. cbn [dict_set]. by rewrite String.eqb_refl.
    + cbn [dict_set]. destruct (String.eqb k2 k) eqn:E2; cbn [dict_set].
      * apply String.eqb_eq in E2. subst k. by rewrite E12 dict_set_set.
      * by rewrite E1 IH.
Qed.

(** The query of page [j] does not depend on the pages asked before. *)
Lemma request_params_again (i j : Z) (d : dict pyval) :
  request_params j (request_params i d) = request_params j d.
Proof.
  unfold request_params. by rewrite !dict_set_swap.
Qed.

Lemma request_params_page i d : dict_get "page" (request_params i d) = Some (PInt i).
Proof.
  unfold request_params. rewrite dict_get_set_ne; [done|]. apply dict_get_set_eq.
Qed.

Lemma request_params_per_page i d :
  dict_get "per_page" (request_params i d) = Some (PInt 1000).
Proof. apply dict_get_set_eq. Qed.

Lemma request_params_other i d k :
  k <> "page" -> k <> "per_page" -> dict_get k (request_params i d) = dict_get k d.
Proof.
  intros H1 H2. unfold request_params. rewrite !dict_get_set_ne //; congruence.
Qed.

Lemma alter_insert {A} (f : A -> A) (h : list A) (i : nat) (x : A) :
  h !! i = Some x -> alter f i h = <[i := f x]> h.
Proof.
  intros Hx. apply list_eq. intros j.
  destruct (decide (i = j)) as [<-|Hne].
  - rewrite list_lookup_alter_eq Hx list_lookup_insert_eq //.
    by eapply lookup_lt_Some.
  - rewrite list_lookup_alter_ne // list_lookup_insert_ne //.
Qed.

Section Loop.
Variable server : remote.
Variable now : string.
Variable endpoint : string.
Variable l : loc.

(** The two assignments and the request at the head of the loop body. *)
Lemma loop_head (i : Z) (d : dict pyval) (w : world) :
  heap w !! l = Some d ->
  send (BASE_URL +:+ endpoint)
       (setitem l "per_page" (PInt 1000) (setitem l "page" (PInt i) w)) l
  = asked endpoint l i d w
  /\ load l (asked endpoint l i d w) = request_params i d.
Proof.
  intros Hd.
  assert (l < length (heap w))%nat as Hlt by by eapply lookup_lt_Some.
  unfold send, setitem, asked, load. cbn [heap requests files].
  rewrite (alter_insert (dict_set "page" (PInt i)) (heap w) l d) //.
  rewrite (alter_insert (dict_set "per_page" (PInt 1000)) _ l
             (dict_set "page" (PInt i) d)).
  { by rewrite list_lookup_insert_eq. }
  rewrite list_insert_insert_eq list_lookup_insert_eq //.
Qed.

(** Whatever the reply, one pass of the body leaves the world [asked]; the
    page number moves on exactly when the pass does not break. *)
Lemma loop_body_world (st : locals) (d : dict pyval) (w : world) :
  heap w !! l = Some d ->
  exists fl st',
    loop_body server endpoint l st w = (fl, st', asked endpoint l (page st) d w)
    /\ page st' = match fl with Next => page st + 1 | Break => page st end.
Proof.
  intros Hd. destruct (loop_head (page st) d w Hd) as [Hw Hload].
  unfold loop_body. rewrite Hw Hload.
  repeat case_match; eauto.
Qed.

(** A page that succeeds is taken and the loop goes on. *)
Lemma loop_body_succeeds (st : locals) (d : dict pyval) (w : world)
    (total : Z) (recs : list pyval) :
  heap w !! l = Some d ->
  page_succeeds total recs (server (BASE_URL +:+ endpoint) (request_params (page st) d)) ->
  exists md,
    loop_body server endpoint l st w
    = (Next,
       {| page := page st + 1;
          total_pages := PInt total;
          last_metadata := md;
          all_data := all_data st ++ recs |},
       asked endpoint l (page st) d w).
Proof.
  intros Hd (body & pagination & Hreply & Hsuccess & Hpag & Htotal & Hdata).
  destruct (loop_head (page st) d w Hd) as [Hw Hload].
  assert (dict_get_default "pagination" (PDict []) body = PDict pagination) as Hpag'
    by by rewrite /dict_get_default Hpag.
  assert (dict_get_default "total_pages" (PInt 1) pagination = PInt total) as Htotal'
    by by rewrite /dict_get_default Htotal.
  assert (dict_get_default "data" (PList []) body = PList recs) as Hdata'
    by by rewrite /dict_get_default Hdata.
  unfold loop_body. rewrite Hw Hload Hreply.
  cbn [Z.eqb Pos.eqb negb]. rewrite Hsuccess. cbn [negb].
  rewrite Hpag' Htotal' Hdata'. cbn.
  eauto.
Qed.

(** A page that fails ends the loop with the locals as they were. *)
Lemma loop_body_fails (st : locals) (d : dict pyval) (w : world) :
  heap w !! l = Some d ->
  page_fails (server (BASE_URL +:+ endpoint) (request_params (page st) d)) ->
  loop_body server endpoint l st w = (Break, st, asked endpoint l (page st) d w).
Proof.
  intros Hd Hfail.
  destruct (loop_head (page st) d w Hd) as [Hw Hload].
  unfold loop_body. rewrite Hw Hload.
  destruct Hfail as [-> | [(code & json & -> & Hcode) | (body & -> & Hsuccess)]].
  - done.
  - apply Z.eqb_neq in Hcode. by rewrite Hcode.
  - cbn [Z.eqb Pos.eqb negb]. by rewrite Hsuccess.
Qed.

End Loop.

Lemma seqZ_one (p : Z) : seqZ p 1 = [p].
Proof. rewrite seqZ_cons; [lia|]. done. Qed.

Section Runs.
Variable server : remote.
Variable now : string.
Variable endpoint : string.
Variable l : loc.

Lemma heap_asked i d w :
  heap w !! l = Some d -> heap (asked endpoint l i d w) !! l = Some (request_params i d).
Proof.
  intros Hd. cbn [asked heap]. rewrite list_lookup_insert_eq //.
  by eapply lookup_lt_Some.
Qed.

Lemma asked_asked i j d w :
  asked endpoint l j (request_params i d) (asked endpoint l i d w)
  = {| heap := <[l := request_params j d]> (heap w);
       requests := requests w ++ [(BASE_URL +:+ endpoint, request_params i d);
                                  (BASE_URL +:+ endpoint, request_params j d)];
       files := files w |}.
Proof.
  unfold asked. cbn [heap requests files].
  by rewrite list_insert_insert_eq request_params_again -app_assoc.
Qed.

(** [n + 1] pages in a row succeed, from the current page on, all
    reporting [total] pages: the loop takes them all. *)
Lemma run_pages (total : Z) (recs : Z -> list pyval) (n : nat) :
  forall (st : locals) (w : world) (d : dict pyval),
    heap w !! l = Some d ->
    int_le (page st) (total_pages st) = Some true ->
    (forall i, page st <= i <= page st + Z.of_nat n ->
       page_succeeds total (recs i)
         (server (BASE_URL +:+ endpoint) (request_params i d))) ->
    (n <> 0%nat -> page st + Z.of_nat n <= total) ->
    exists st' w',
      (forall fuel,
          while_loop server (S n + fuel) endpoint l st w
          = while_loop server fuel endpoint l st' w')
      /\ page st' = page st + Z.of_nat n + 1
      /\ total_pages st' = PInt total
      /\ all_data st' = all_data st ++ concat (map recs (seqZ (page st) (Z.of_nat n + 1)))
      /\ heap w' = <[l := request_params (page st + Z.of_nat n) d]> (heap w)
      /\ requests w'
         = requests w
           ++ map (fun i => (BASE_URL +:+ endpoint, request_params i d))
                  (seqZ (page st) (Z.of_nat n + 1))
      /\ files w' = files w.
Proof.
  induction n as [|n IH]; intros st w d Hd Hle Hpages Hcont.
  - destruct (loop_body_succeeds server endpoint l st d w total (recs (page st)) Hd)
      as [md Hbody]; [apply Hpages; lia|].
    eexists _, _. split.
    { intros fuel. cbn [while_loop Nat.add]. rewrite Hle Hbody. reflexivity. }
    cbn [page total_pages all_data asked heap requests files].
    change (Z.of_nat 0 + 1) with 1. rewrite Z.add_0_r seqZ_one.
    cbn [map concat]. by rewrite app_nil_r.
  - destruct (loop_body_succeeds server endpoint l st d w total (recs (page st)) Hd)
      as [md Hbody]; [apply Hpages; lia|].
    set (st1 := {| page := page st + 1; total_pages := PInt total;
                   last_metadata := md; all_data := all_data st ++ recs (page st) |}) in *.
    destruct (IH st1 (asked endpoint l (page st) d w) (request_params (page st) d))
      as (st' & w' & Hrun & Hpage & Htotal & Hdata & Hheap & Hreq & Hfiles).
    + by apply heap_asked.
    + cbn [st1 page total_pages int_le]. f_equal. apply Z.leb_le. lia.
    + intros i Hi. cbn [st1 page] in Hi. rewrite request_params_again.
      apply Hpages. lia.
    + intros _. cbn [st1 page]. lia.
    + exists st', w'. split.
      { intros fuel. cbn [while_loop Nat.add]. rewrite Hle Hbody. apply Hrun. }
      cbn [st1 page all_data] in *.
      assert (seqZ (page st) (Z.of_nat (S n) + 1)
              = page st :: seqZ (page st + 1) (Z.of_nat n + 1)) as ->.
      { rewrite seqZ_cons; [lia|]. f_equal. f_equal; lia. }
      cbn [map concat].
      split; [lia|]. split; [done|].
      split; [by rewrite Hdata -app_assoc|].
      split.
      { rewrite Hheap. cbn [asked heap]. rewrite list_insert_insert_eq.
        rewrite request_params_again. do 2 f_equal. lia. }
      split; [|done].
      rewrite Hreq. cbn [asked requests]. rewrite -app_assoc. cbn [app].
      do 2 f_equal. apply map_ext. intros i. by rewrite request_params_again.
Qed.

(** How a call starts: with the caller's dict, or with a new empty one. *)
Lemma fetch_all_pages_start (params : option loc) (d0 : dict pyval) (w : world) :
  match params with
  | Some q => heap w !! q = Some d0
  | None => d0 = []
  end ->
  exists q w0,
    heap w0 !! q = Some d0
    /\ requests w0 = requests w
    /\ files w0 = files w
    /\ (forall q', params = Some q' -> q = q')
    /\ forall fuel,
         fetch_all_pages server now fuel endpoint params w
         = (st <- while_loop server fuel endpoint q
                    {| page := 1; total_pages := PInt 1;
                       last_metadata := PDict []; all_data := [] |} ;;
            ret {| metadata := last_metadata st;
                   total_records := Z.of_nat (length (all_data st));
                   fetched_at := now;
                   source := endpoint;
                   params := q;
                   data := all_data st |}) w0.
Proof.
  destruct params as [q|]; intros Hd0.
  - exists q, w. repeat split; try done. by intros q' [= ->].
  - subst d0.
    exists (length (heap w)),
      {| heap := heap w ++ [[]]; requests := requests w; files := files w |}.
    cbn [heap requests files]. split; [|done].
    by rewrite lookup_app_r // Nat.sub_diag.
Qed.

End Runs.

(** C1, as stated, fails when the source reports zero pages: the first
    page is asked before any page count is known, so one request is sent,
    not zero. *)
Lemma one_fetch_for_zero_pages :
  (forall url query, page_succeeds 0 [] (Samples.nothing_yet url query))
  /\ exists ds w',
       fetch_all_pages Samples.nothing_yet Samples.noon 3 "/crd" None Samples.no_world
       = Some (Returned ds, w')
       /\ length (requests w') = 1%nat.
Proof.
  split.
  - intros url query. eexists _, _. by repeat split.
  - eexists _, _. split; [reflexivity | reflexivity].
Qed.

(** C1, amended: if the source reports [total_pages = N] on every response
    and the requests for the pages 1 to [max N 1] succeed, then
    [fetch_all_pages] (given its loop enough iterations) returns after
    exactly [max N 1] requests, one per page in page order with
    [page] and [per_page = 1000] in the query; the [data] of the returned
    dataset is the concatenation of the pages' record lists in page order
    and its [total_records] is the sum of the pages' record counts. For
    [N >= 1] these are the [N] pages; for [N <= 0] page 1 is still asked. *)
Theorem fetch_all_pages_complete (server : remote) (now endpoint : string)
    (params : option loc) (d0 : dict pyval) (w : world)
    (N : Z) (recs : Z -> list pyval) :
  match params with
  | Some q => heap w !! q = Some d0
  | None => d0 = []
  end ->
  (forall i, 1 <= i <= Z.max N 1 ->
     page_succeeds N (recs i) (server (BASE_URL +:+ endpoint) (request_params i d0))) ->
  exists ds w',
    (forall fuel, (Z.to_nat (Z.max N 1) < fuel)%nat ->
       fetch_all_pages server now fuel endpoint params w = Some (Returned ds, w'))
    /\ requests w'
       = requests w
         ++ map (fun i => (BASE_URL +:+ endpoint, request_params i d0))
                (seqZ 1 (Z.max N 1))
    /\ length (requests w') = (length (requests w) + Z.to_nat (Z.max N 1))%nat
    /\ data ds = concat (map recs (seqZ 1 (Z.max N 1)))
    /\ total_records ds
       = fold_right Z.add 0 (map (fun i => Z.of_nat (length (recs i))) (seqZ 1 (Z.max N 1)))
    /\ files w' = files w.
Proof.
  intros Hparams Hpages.
  destruct (fetch_all_pages_start server now endpoint params d0 w Hparams)
    as (q & w0 & Hd0 & Hreq0 & Hfiles0 & Hq & Hstart).
  set (M := Z.max N 1) in *.
  destruct (run_pages server endpoint q N recs (Z.to_nat (M - 1))
              {| page := 1; total_pages := PInt 1;
                 last_metadata := PDict []; all_data := [] |} w0 d0)
    as (st' & w' & Hrun & Hpage & Htotal & Hdata & Hheap & Hreq & Hfiles).
  - done.
  - done.
  - intros i Hi. cbn [page] in Hi. apply Hpages. lia.
  - intros Hn. cbn [page]. lia.
  - cbn [page all_data app] in *.
    replace (Z.of_nat (Z.to_nat (M - 1)) + 1) with M in * by lia.
    eexists _, w'. split; [|split; [|split; [|split; [|split]]]].
    + intros fuel Hfuel.
      rewrite Hstart.
      replace fuel with (S (Z.to_nat (M - 1)) + S (fuel - Z.to_nat M - 1))%nat by lia.
      unfold bind. rewrite Hrun. cbn [while_loop]. rewrite Htotal Hpage.
      cbn [int_le].
      replace (1 + Z.of_nat (Z.to_nat (M - 1)) + 1 <=? N) with false
        by (symmetry; apply Z.leb_gt; lia).
      reflexivity.
    + by rewrite Hreq Hreq0.
    + rewrite Hreq Hreq0 length_app length_map length_seqZ. done.
    + cbn [data]. done.
    + cbn [total_records]. rewrite Hdata.
      generalize (seqZ 1 M). intros pages.
      induction pages as [|i pages IH]; [done|].
      cbn [map concat fold_right]. rewrite length_app. lia.
    + by rewrite Hfiles Hfiles0.
Qed.

Lemma fetch_all_pages_complete_witness :
  heap Samples.equity_world !! 0%nat = Some [("market", PStr "equity")]
  /\ exists ds w',
       fetch_all_pages Samples.two_pages Samples.noon 3 "/announcements" (Some 0%nat)
         Samples.equity_world
       = Some (Returned ds, w')
       /\ length (requests w') = 2%nat
       /\ data ds = Samples.page_one ++ Samples.page_two
       /\ total_records ds = 5.
Proof.
  split; [reflexivity|].
  assert (forall i, 1 <= i <= Z.max 2 1 ->
            page_succeeds 2 (Samples.records_of i)
              (Samples.two_pages (BASE_URL +:+ "/announcements")
                 (request_params i [("market", PStr "equity")]))) as Hpages.
  { intros i Hi. assert (i = 1 \/ i = 2) as [-> | ->] by lia;
      eexists _, _; by repeat split. }
  destruct (fetch_all_pages_complete Samples.two_pages Samples.noon "/announcements"
              (Some 0%nat) [("market", PStr "equity")] Samples.equity_world 2
              Samples.records_of eq_refl Hpages)
    as (ds & w' & Hrun & _ & Hlen & Hdata & Htotal & _).
  exists ds, w'. split; [apply Hrun; vm_compute; lia|].
  split; [exact Hlen|]. split; [exact Hdata | exact Htotal].
Defined.

(** C2, as stated, fails on the [fetch_error] field: when page 2 of 2
    answers 500, the dataset comes back with the records of page 1, and
    neither it nor the file written from it has such a field; the error
    is recorded nowhere in it. *)
Lemma truncated_dataset_has_no_fetch_error :
  page_fails (Samples.second_page_down (BASE_URL +:+ "/event-calendar")
                (request_params 2 []))
  /\ exists ds w',
       fetch_all_pages Samples.second_page_down Samples.noon 3 "/event-calendar" None
         Samples.no_world
       = Some (Returned ds, w')
       /\ data ds = Samples.page_one
       /\ exists fields,
            dataset_json w' ds = PDict fields
            /\ dict_keys fields
               = ["metadata"; "total_records"; "fetched_at"; "source"; "params"; "data"]
            /\ dict_get "fetch_error" fields = None.
Proof.
  split.
  - right. left. by exists 500, None.
  - eexists _, _. split; [reflexivity|]. split; [reflexivity|].
    eexists. by repeat split.
Qed.

(** C2, amended: if the source reports [total_pages = N], the pages 1 to
    [k - 1] succeed and page [k] (with [1 < k <= N]) is the first to fail
    (transport error, status other than 200, or success flag false), then
    [fetch_all_pages] returns normally, after [k] requests, a dataset whose
    records are the concatenation of the records of the pages 1 to [k - 1]
    (so none comes from page [k] or later) and whose [total_records] is
    their number. The dataset has the six fields [metadata],
    [total_records], [fetched_at], [source], [params], [data] and no
    [fetch_error] field: the error is not recorded in it. *)
Theorem fetch_all_pages_truncated (server : remote) (now endpoint : string)
    (params : option loc) (d0 : dict pyval) (w : world)
    (N k : Z) (recs : Z -> list pyval) :
  match params with
  | Some q => heap w !! q = Some d0
  | None => d0 = []
  end ->
  1 < k <= N ->
  (forall i, 1 <= i < k ->
     page_succeeds N (recs i) (server (BASE_URL +:+ endpoint) (request_params i d0))) ->
  page_fails (server (BASE_URL +:+ endpoint) (request_params k d0)) ->
  exists ds w',
    (forall fuel, (Z.to_nat k <= fuel)%nat ->
       fetch_all_pages server now fuel endpoint params w = Some (Returned ds, w'))
    /\ data ds = concat (map recs (seqZ 1 (k - 1)))
    /\ total_records ds = Z.of_nat (length (data ds))
    /\ requests w'
       = requests w
         ++ map (fun i => (BASE_URL +:+ endpoint, request_params i d0)) (seqZ 1 k)
    /\ files w' = files w
    /\ exists fields,
         dataset_json w' ds = PDict fields
         /\ dict_keys fields
            = ["metadata"; "total_records"; "fetched_at"; "source"; "params"; "data"]
         /\ dict_get "fetch_error" fields = None.
Proof.
  intros Hparams Hk Hpages Hfail.
  destruct (fetch_all_pages_start server now endpoint params d0 w Hparams)
    as (q & w0 & Hd0 & Hreq0 & Hfiles0 & Hq & Hstart).
  destruct (run_pages server endpoint q N recs (Z.to_nat (k - 2))
              {| page := 1; total_pages := PInt 1;
                 last_metadata := PDict []; all_data := [] |} w0 d0)
    as (st' & w' & Hrun & Hpage & Htotal & Hdata & Hheap & Hreq & Hfiles).
  - done.
  - done.
  - intros i Hi. cbn [page] in Hi. apply Hpages. lia.
  - intros Hn. cbn [page]. lia.
  - cbn [page all_data app] in *.
    replace (Z.of_nat (Z.to_nat (k - 2)) + 1) with (k - 1) in * by lia.
    replace (1 + Z.of_nat (Z.to_nat (k - 2)) + 1) with k in * by lia.
    replace (1 + Z.of_nat (Z.to_nat (k - 2))) with (k - 1) in * by lia.
    assert (heap w' !! q = Some (request_params (k - 1) d0)) as Hd'.
    { rewrite Hheap list_lookup_insert_eq //. by eapply lookup_lt_Some. }
    assert (loop_body server endpoint q st' w'
            = (Break, st', asked endpoint q k (request_params (k - 1) d0) w')) as Hbody.
    { pose proof (loop_body_fails server endpoint q st' (request_params (k - 1) d0) w' Hd')
        as Hbreak.
      rewrite Hpage request_params_again in Hbreak. by apply Hbreak. }
    eexists _, _. split; [|split; [|split; [|split; [|split]]]].
    + intros fuel Hfuel.
      rewrite Hstart.
      replace fuel with (S (Z.to_nat (k - 2)) + S (fuel - Z.to_nat k))%nat by lia.
      unfold bind. rewrite Hrun. cbn [while_loop]. rewrite Htotal Hpage.
      cbn [int_le].
      replace (k <=? N) with true by (symmetry; apply Z.leb_le; lia).
      rewrite Hbody. reflexivity.
    + cbn [data]. done.
    + done.
    + cbn [asked requests]. rewrite Hreq Hreq0 request_params_again -app_assoc.
      f_equal.
      pose proof (seqZ_app 1 (k - 1) 1) as Happ.
      rewrite seqZ_one in Happ.
      replace (k - 1 + 1) with k in Happ by lia.
      replace (1 + (k - 1)) with k in Happ by lia.
      rewrite Happ; [lia..|]. by rewrite map_app.
    + cbn [asked files]. by rewrite Hfiles Hfiles0.
    + eexists. by repeat split.
Qed.

Lemma fetch_all_pages_truncated_witness :
  ([] : dict pyval) = []
  /\ 1 < 2 <= 2
  /\ page_fails (Samples.second_page_down (BASE_URL +:+ "/crd") (request_params 2 []))
  /\ exists ds w',
       fetch_all_pages Samples.second_page_down Samples.noon 2 "/crd" None
         Samples.no_world
       = Some (Returned ds, w')
       /\ data ds = Samples.page_one
       /\ length (requests w') = 2%nat.
Proof.
  assert (page_fails (Samples.second_page_down (BASE_URL +:+ "/crd") (request_params 2 [])))
    as Hfail.
  { right. left. by exists 500, None. }
  assert (forall i, 1 <= i < 2 ->
            page_succeeds 2 (Samples.records_of i)
              (Samples.second_page_down (BASE_URL +:+ "/crd") (request_params i [])))
    as Hpages.
  { intros i Hi. assert (i = 1) as -> by lia. eexists _, _; by repeat split. }
  split; [reflexivity|]. split; [lia|]. split; [exact Hfail|].
  destruct (fetch_all_pages_truncated Samples.second_page_down Samples.noon "/crd"
              None [] Samples.no_world 2 2 Samples.records_of eq_refl
              (conj eq_refl (Z.le_refl 2)) Hpages Hfail)
    as (ds & w' & Hrun & Hdata & _ & Hreq & _).
  exists ds, w'. split; [apply Hrun; vm_compute; lia|].
  split; [exact Hdata|]. by rewrite Hreq.
Defined.

(** Whatever the source replies, a run of the loop that ends has sent the
    requests of consecutive pages, each with the query written into the
    dict at [l], and has left the last query there. *)
Lemma while_loop_trace (server : remote) (endpoint : string) (l : loc) (fuel : nat) :
  forall (st : locals) (w : world) (d : dict pyval) (r : result locals) (w' : world),
    heap w !! l = Some d ->
    while_loop server fuel endpoint l st w = Some (r, w') ->
    exists n : nat,
      requests w'
      = requests w
        ++ map (fun i => (BASE_URL +:+ endpoint, request_params i d))
               (seqZ (page st) (Z.of_nat n))
      /\ files w' = files w
      /\ (n = 0%nat -> w' = w)
      /\ (n <> 0%nat ->
          heap w' = <[l := request_params (page st + Z.of_nat n - 1) d]> (heap w))
      /\ (int_le (page st) (total_pages st) = Some true -> n <> 0%nat).
Proof.
  induction fuel as [|fuel IH]; intros st w d r w' Hd Hrun; [done|].
  cbn [while_loop] in Hrun.
  destruct (int_le (page st) (total_pages st)) as [[|]|] eqn:Hle.
  - destruct (loop_body_world server endpoint l st d w Hd) as (fl & st1 & Hbody & Hpage).
    rewrite Hbody in Hrun. destruct fl.
    + destruct (IH st1 _ (request_params (page st) d) r w' (heap_asked endpoint l _ _ _ Hd) Hrun)
        as (n & Hreq & Hfiles & Hzero & Hheap & _).
      exists (S n). rewrite Hpage in Hreq, Hheap.
      split; [|split; [done|split; [done|split; [|done]]]].
      * rewrite Hreq. cbn [asked requests]. rewrite -app_assoc. f_equal.
        rewrite (seqZ_cons (page st)); [lia|]. cbn [map app].
        f_equal. replace (Z.pred (Z.of_nat (S n))) with (Z.of_nat n) by lia.
        apply map_ext. intros i. by rewrite request_params_again.
      * intros _. destruct n as [|n].
        { rewrite Hzero //. cbn [asked heap]. do 2 f_equal. lia. }
        rewrite Hheap //. cbn [asked heap].
        rewrite list_insert_insert_eq request_params_again. do 2 f_equal. lia.
    + injection Hrun as <- <-. exists 1%nat.
      split; [|split; [done|split; [done|split; [|done]]]].
      * change (Z.of_nat 1) with 1. by rewrite seqZ_one.
      * intros _. cbn [asked heap]. do 2 f_equal. lia.
  - injection Hrun as <- <-. exists 0%nat.
    split; [|done].
    change (seqZ (page st) (Z.of_nat 0)) with (@nil Z). by rewrite app_nil_r.
  - injection Hrun as <- <-. exists 0%nat.
    split; [|done].
    change (seqZ (page st) (Z.of_nat 0)) with (@nil Z). by rewrite app_nil_r.
Qed.

(** C10: every run of [fetch_all_pages] that returns has written [page]
    and [per_page = 1000] into the caller's own dict before each request
    (the requests carry the page numbers 1, 2, ..., [n] in it), and the
    [params] of the returned dataset is that very dict. So after the run,
    and in the file written from the dataset, [params] holds the page
    number of the last request sent and [per_page = 1000], next to the
    caller's other entries, which are unchanged. *)
Theorem params_hold_last_request (server : remote) (now endpoint : string) (fuel : nat)
    (caller : option loc) (d0 : dict pyval) (w : world) (ds : dataset) (w' : world) :
  match caller with
  | Some q => heap w !! q = Some d0
  | None => d0 = []
  end ->
  fetch_all_pages server now fuel endpoint caller w = Some (Returned ds, w') ->
  exists n : nat,
    (1 <= n)%nat
    /\ requests w'
       = requests w
         ++ map (fun i => (BASE_URL +:+ endpoint, request_params i d0))
                (seqZ 1 (Z.of_nat n))
    /\ (exists earlier,
          requests w'
          = earlier ++ [(BASE_URL +:+ endpoint, request_params (Z.of_nat n) d0)])
    /\ (forall q, caller = Some q -> params ds = q)
    /\ heap w' !! params ds = Some (request_params (Z.of_nat n) d0)
    /\ dict_get "page" (request_params (Z.of_nat n) d0) = Some (PInt (Z.of_nat n))
    /\ dict_get "per_page" (request_params (Z.of_nat n) d0) = Some (PInt 1000)
    /\ (forall k, k <> "page" -> k <> "per_page" ->
          dict_get k (request_params (Z.of_nat n) d0) = dict_get k d0)
    /\ exists fields,
         dataset_json w' ds = PDict fields
         /\ dict_get "params" fields = Some (PDict (request_params (Z.of_nat n) d0)).
Proof.
  intros Hparams Hrun.
  destruct (fetch_all_pages_start server now endpoint caller d0 w Hparams)
    as (q & w0 & Hd0 & Hreq0 & Hfiles0 & Hq & Hstart).
  rewrite Hstart in Hrun. unfold bind in Hrun.
  destruct (while_loop server fuel endpoint q _ w0) as [[[st|] w1]|] eqn:Hloop;
    [|done..].
  cbn [ret] in Hrun. injection Hrun as <- <-.
  destruct (while_loop_trace server endpoint q fuel _ w0 d0 _ _ Hd0 Hloop)
    as (n & Hreq & Hfiles & _ & Hheap & Hpos).
  cbn [page total_pages] in *.
  specialize (Hpos eq_refl). specialize (Hheap Hpos).
  replace (1 + Z.of_nat n - 1) with (Z.of_nat n) in Hheap by lia.
  assert (heap w1 !! q = Some (request_params (Z.of_nat n) d0)) as Hq1.
  { rewrite Hheap list_lookup_insert_eq //. by eapply lookup_lt_Some. }
  exists n. cbn [params].
  split; [lia|]. split; [by rewrite Hreq Hreq0|].
  split.
  { destruct n as [|n]; [done|]. rewrite Hreq seqZ_S map_app. cbn [map].
    rewrite app_assoc. eexists. do 4 f_equal. lia. }
  split; [intros q' Hq'; by apply Hq|].
  split; [done|].
  split; [apply request_params_page|].
  split; [apply request_params_per_page|].
  split; [intros k; apply request_params_other|].
  eexists. split; [reflexivity|]. cbn [dict_get String.eqb Ascii.eqb Bool.eqb].
  unfold load. by rewrite Hq1.
Qed.

Lemma params_hold_last_request_witness :
  heap Samples.equity_world !! 0%nat = Some [("market", PStr "equity")]
  /\ exists ds w',
       fetch_all_pages Samples.second_page_down Samples.noon 4 "/announcements"
         (Some 0%nat) Samples.equity_world
       = Some (Returned ds, w')
       /\ params ds = 0%nat
       /\ exists n : nat,
            heap w' !! 0%nat
            = Some (request_params (Z.of_nat n) [("market", PStr "equity")])
            /\ (1 <= n)%nat.
Proof.
  split; [reflexivity|].
  eexists _, _. split; [reflexivity|]. split; [reflexivity|].
  destruct (params_hold_last_request Samples.second_page_down Samples.noon
              "/announcements" 4 (Some 0%nat) [("market", PStr "equity")]
              Samples.equity_world _ _ eq_refl eq_refl)
    as (n & Hn & _ & _ & _ & Hheap & _).
  exists n. split; [exact Hheap | exact Hn].
Defined.

(** ** What gets saved *)

Lemma loop_body_files server endpoint l st w :
  files (loop_body server endpoint l st w).2 = files w.
Proof. unfold loop_body. by repeat case_match. Qed.

Lemma while_loop_files server endpoint l fuel :
  forall st w r w',
    while_loop server fuel endpoint l st w = Some (r, w') -> files w' = files w.
Proof.
  induction fuel as [|fuel IH]; intros st w r w' Hrun; [done|].
  cbn [while_loop] in Hrun.
  destruct (int_le (page st) (total_pages st)) as [[|]|]; [|by injection Hrun as <- <-..].
  pose proof (loop_body_files server endpoint l st w) as Hbody.
  destruct (loop_body server endpoint l st w) as [[[|] st1] w1]; cbn [snd] in Hbody.
  - apply IH in Hrun. congruence.
  - injection Hrun as <- <-. done.
Qed.

(** A call writes no file, and the count it returns is the number of its
    records. *)
Lemma fetch_all_pages_frame server now fuel endpoint caller w r w' :
  fetch_all_pages server now fuel endpoint caller w = Some (r, w') ->
  files w' = files w
  /\ match r with
     | Returned ds => total_records ds = Z.of_nat (length (data ds))
     | Raised => True
     end.
Proof.
  unfold fetch_all_pages, bind. intros Hrun.
  destruct caller as [q|]; cbn [ret alloc] in Hrun.
  - destruct (while_loop server fuel endpoint q _ w) as [[[st|] w1]|] eqn:Hloop; [| |done].
    + injection Hrun as <- <-. split; [|done]. by eapply while_loop_files.
    + injection Hrun as <- <-. split; [|done]. by eapply while_loop_files.
  - destruct (while_loop server fuel endpoint _ _ _) as [[[st|] w1]|] eqn:Hloop; [| |done].
    + injection Hrun as <- <-. split; [|done].
      apply while_loop_files in Hloop. done.
    + injection Hrun as <- <-. split; [|done].
      apply while_loop_files in Hloop. done.
Qed.

(** The per-market loop of [fetch_announcements] and [fetch_credit_rating]
    has the guard: every file it writes holds at least one record. *)
Lemma fetch_markets_saves_nonempty server now fuel endpoint file_prefix markets :
  forall results w r w',
    fetch_markets server now fuel endpoint file_prefix markets results w = Some (r, w') ->
    exists saved,
      files w' = files w ++ saved
      /\ Forall (fun f => exists fields n,
                    f.2 = PDict fields
                    /\ dict_get "total_records" fields = Some (PInt n)
                    /\ 0 < n)
                saved.
Proof.
  induction markets as [|market markets IH]; intros results w r w' Hrun.
  - injection Hrun as <- <-. exists []. by rewrite app_nil_r.
  - cbn [fetch_markets] in Hrun. unfold bind at 1 in Hrun. cbn [alloc] in Hrun.
    unfold bind at 1 in Hrun.
    destruct (fetch_all_pages server now fuel endpoint _ _) as [[[ds|] w1]|] eqn:Hfetch;
      [| |done].
    + apply fetch_all_pages_frame in Hfetch as [Hfiles _]. cbn [files] in Hfiles.
      destruct (0 <? total_records ds) eqn:Hpos.
      * unfold bind at 1 in Hrun. cbn [save_to_json write_file] in Hrun.
        apply IH in Hrun as (saved & Hsaved & Hall). cbn [files] in Hsaved.
        eexists (_ :: saved). split.
        { rewrite Hsaved Hfiles -app_assoc. reflexivity. }
        constructor; [|done]. cbn [snd dataset_json].
        eexists _, _. split; [reflexivity|]. split; [reflexivity|].
        by apply Z.ltb_lt.
      * apply IH in Hrun as (saved & Hsaved & Hall).
        exists saved. split; [congruence | done].
    + injection Hrun as <- <-.
      apply fetch_all_pages_frame in Hfetch as [Hfiles _]. cbn [files] in Hfiles.
      exists []. by rewrite app_nil_r.
Qed.

(** C3 does not hold of the code: [fetch_event_calendar] and [fetch_crd]
    save whatever [fetch_all_pages] returns. Against a source without
    records each of them writes its file with [total_records = 0] and an
    empty [data], while [fetch_announcements], which has the guard, writes
    nothing against the same source. *)
Theorem empty_dataset_is_saved :
  (exists ds w',
      fetch_event_calendar Samples.nothing_yet Samples.noon 3 Samples.no_world
      = Some (Returned ds, w')
      /\ data ds = []
      /\ files w'
         = [("fetched_data/event_calendar_all.json",
             PDict [("metadata", PDict [("total_pages_scraped", PInt 0)]);
                    ("total_records", PInt 0);
                    ("fetched_at", PStr Samples.noon);
                    ("source", PStr "/event-calendar");
                    ("params", PDict [("page", PInt 1); ("per_page", PInt 1000)]);
                    ("data", PList [])])])
  /\ (exists ds w',
         fetch_crd Samples.nothing_yet Samples.noon 3 Samples.no_world
         = Some (Returned ds, w')
         /\ data ds = []
         /\ (files w').*1 = ["fetched_data/crd_all.json"])
  /\ (exists per_market w',
         fetch_announcements Samples.nothing_yet Samples.noon 3 Samples.no_world
         = Some (Returned per_market, w')
         /\ files w' = []).
Proof.
  split; [|split]; eexists _, _; by repeat split.
Qed.

(** * Further properties of the viewers *)

Lemma lower_app (a b : string) : lower (a +:+ b) = lower a +:+ lower b.
Proof.
  induction a as [|c a IH]; [done|].
  rewrite append_cons. cbn [lower]. by rewrite IH append_cons.
Qed.

Lemma contains_trans (a b c : string) :
  contains a b = true -> contains b c = true -> contains a c = true.
Proof.
  rewrite !contains_spec. intros (x & y & ->) (u & v & ->).
  exists (u +:+ x), (y +:+ v). by rewrite !append_assoc.
Qed.

Lemma list_filter_refine {A} (p q : A -> bool) (l : list A) :
  (forall x, q x = true -> p x = true) ->
  List.filter q (List.filter p l) = List.filter q l.
Proof.
  intros Hqp. induction l as [|x l IH]; [done|]. cbn [List.filter].
  destruct (p x) eqn:Hp; cbn [List.filter]; rewrite IH //.
  destruct (q x) eqn:Hq; [|done]. apply Hqp in Hq. congruence.
Qed.

Lemma list_filter_comm {A} (p q : A -> bool) (l : list A) :
  List.filter p (List.filter q l) = List.filter q (List.filter p l).
Proof.
  induction l as [|x l IH]; [done|]. cbn [List.filter].
  destruct (p x) eqn:Hp, (q x) eqn:Hq; cbn [List.filter]; rewrite ?Hp ?Hq IH //.
Qed.

Lemma announcements_filter_by_company_filter data keyword :
  ViewAnnouncements.filter_by_company data keyword
  = List.filter
      (fun r =>
         ViewAnnouncements.str_matches keyword
           (dict_get_default "COMPANY NAME" (PStr "") r)
         || ViewAnnouncements.str_matches keyword
              match dict_get_default "SYMBOL" (PStr "") r with
              | PDict d => dict_get_default "text" (PStr "") d
              | _ => dict_get_default "SYMBOL" (PStr "") r
              end)
      data.
Proof.
  unfold ViewAnnouncements.filter_by_company.
  exact (fold_append_filter
           (fun r =>
              ViewAnnouncements.str_matches keyword
                (dict_get_default "COMPANY NAME" (PStr "") r)
              || ViewAnnouncements.str_matches keyword
                   match dict_get_default "SYMBOL" (PStr "") r with
                   | PDict d => dict_get_default "text" (PStr "") d
                   | _ => dict_get_default "SYMBOL" (PStr "") r
                   end)
           data []).
Qed.

Lemma filter_by_date_filter data date_str :
  ViewAnnouncements.filter_by_date data date_str
  = List.filter
      (fun r => ViewAnnouncements.str_has date_str
                  (dict_get_default "BROADCAST DATE/TIME" (PStr "") r))
      data.
Proof.
  unfold ViewAnnouncements.filter_by_date.
  exact (fold_append_filter
           (fun r => ViewAnnouncements.str_has date_str
                       (dict_get_default "BROADCAST DATE/TIME" (PStr "") r))
           data []).
Qed.

(** X1: a longer keyword narrows the search. If [k1] occurs in [k2], case
    apart, then searching the subjects for [k2] gives the same as
    searching for [k1] first and for [k2] in what was found, and so a
    sublist of the records found for [k1]. *)
Theorem filter_by_subject_narrows (data : list record) (k1 k2 a b : string) :
  lower k2 = a +:+ lower k1 +:+ b ->
  ViewAnnouncements.filter_by_subject
    (ViewAnnouncements.filter_by_subject data k1) k2
  = ViewAnnouncements.filter_by_subject data k2
  /\ sublist (ViewAnnouncements.filter_by_subject data k2)
             (ViewAnnouncements.filter_by_subject data k1).
Proof.
  intros Hk.
  assert (ViewAnnouncements.filter_by_subject
            (ViewAnnouncements.filter_by_subject data k1) k2
          = ViewAnnouncements.filter_by_subject data k2) as Heq.
  { rewrite !filter_by_subject_filter. apply list_filter_refine.
    intros r. generalize (dict_get_default "SUBJECT" (PStr "") r). intros v.
    destruct v as [| | |s| |]; cbn [ViewAnnouncements.str_matches]; try done.
    apply contains_trans. apply contains_spec. eauto. }
  split; [done|]. rewrite -Heq filter_by_subject_filter.
  apply list_filter_sublist.
Qed.

Lemma filter_by_subject_narrows_witness :
  lower "Dividend" = "" +:+ lower "DIV" +:+ "idend"
  /\ sublist
       (ViewAnnouncements.filter_by_subject
          [[("SUBJECT", PStr "Interim dividend")]; [("SUBJECT", PStr "Divestment")]]
          "Dividend")
       (ViewAnnouncements.filter_by_subject
          [[("SUBJECT", PStr "Interim dividend")]; [("SUBJECT", PStr "Divestment")]]
          "DIV").
Proof.
  split; [reflexivity|].
  apply (filter_by_subject_narrows
           [[("SUBJECT", PStr "Interim dividend")]; [("SUBJECT", PStr "Divestment")]]
           "DIV" "Dividend" "" "idend" eq_refl).
Defined.

(** X2: the three searches of the announcement viewer can be applied in
    any order: by subject, by company or symbol, and by date commute with
    one another. *)
Theorem announcement_filters_commute (data : list record) (subject company date : string) :
  ViewAnnouncements.filter_by_subject
    (ViewAnnouncements.filter_by_company data company) subject
  = ViewAnnouncements.filter_by_company
      (ViewAnnouncements.filter_by_subject data subject) company
  /\ ViewAnnouncements.filter_by_subject
       (ViewAnnouncements.filter_by_date data date) subject
     = ViewAnnouncements.filter_by_date
         (ViewAnnouncements.filter_by_subject data subject) date
  /\ ViewAnnouncements.filter_by_company
       (ViewAnnouncements.filter_by_date data date) company
     = ViewAnnouncements.filter_by_date
         (ViewAnnouncements.filter_by_company data company) date.
Proof.
  rewrite !filter_by_subject_filter !announcements_filter_by_company_filter
    !filter_by_date_filter.
  repeat split; apply list_filter_comm.
Qed.

(** X3: [filter_by_company] of the announcement viewer keeps, in order,
    exactly the records in which the keyword occurs, case apart, in the
    company name (a string) or in the symbol, the symbol being a string or
    the [text] of a rich cell. A record whose company name and symbol are
    both absent is kept only by the empty keyword. *)
Theorem announcements_filter_by_company_spec (data : list record) (keyword : string) :
  sublist (ViewAnnouncements.filter_by_company data keyword) data
  /\ (forall r,
         r ∈ ViewAnnouncements.filter_by_company data keyword
         <-> r ∈ data
             /\ exists s,
                  (dict_get_default "COMPANY NAME" (PStr "") r = PStr s
                   \/ dict_get_default "SYMBOL" (PStr "") r = PStr s
                   \/ exists d,
                        dict_get_default "SYMBOL" (PStr "") r = PDict d
                        /\ dict_get_default "text" (PStr "") d = PStr s)
                  /\ exists a b, lower s = a +:+ lower keyword +:+ b)
  /\ (forall r,
         r ∈ data -> dict_get "COMPANY NAME" r = None -> dict_get "SYMBOL" r = None ->
         (r ∈ ViewAnnouncements.filter_by_company data keyword <-> keyword = "")).
Proof.
  rewrite announcements_filter_by_company_filter.
  split; [apply list_filter_sublist|]. split.
  - intros r. rewrite elem_of_list_filter orb_true_iff !str_matches_spec.
    generalize (dict_get_default "COMPANY NAME" (PStr "") r).
    generalize (dict_get_default "SYMBOL" (PStr "") r). intros symbol company.
    split.
    + intros (Hr & [(s & Hs & Hsub) | (s & Hs & Hsub)]); (split; [done|]); exists s;
        (split; [|done]); [by left|].
      right. destruct symbol as [| | | | |d]; eauto.
    + intros (Hr & s & [Hs | [Hs | (d & Hd & Hs)]] & Hsub); (split; [done|]).
      * left. eauto.
      * right. exists s. split; [|done]. by subst symbol.
      * right. exists s. split; [|done]. by subst symbol.
  - intros r Hr Hc Hs. rewrite elem_of_list_filter.
    unfold dict_get_default. rewrite Hc Hs. cbn.
    rewrite orb_diag contains_in_empty lower_empty. tauto.
Qed.

(** X4: [filter_by_date] keeps, in order, exactly the records whose
    [BROADCAST DATE/TIME] is a string in which the given text occurs as it
    is written (this search does not fold case); a record whose date is not
    a string is never kept, and one without a date only by the empty
    text. *)
Theorem filter_by_date_spec (data : list record) (date_str : string) :
  sublist (ViewAnnouncements.filter_by_date data date_str) data
  /\ (forall r,
         r ∈ ViewAnnouncements.filter_by_date data date_str
         <-> r ∈ data
             /\ exists s a b,
                  dict_get_default "BROADCAST DATE/TIME" (PStr "") r = PStr s
                  /\ s = a +:+ date_str +:+ b)
  /\ (forall r,
         r ∈ data -> dict_get "BROADCAST DATE/TIME" r = None ->
         (r ∈ ViewAnnouncements.filter_by_date data date_str <-> date_str = "")).
Proof.
  rewrite filter_by_date_filter.
  split; [apply list_filter_sublist|]. split.
  - intros r. rewrite elem_of_list_filter.
    destruct (dict_get_default "BROADCAST DATE/TIME" (PStr "") r) as [| | |s| |];
      cbn [ViewAnnouncements.str_has];
      try (split; [intros [_ ?]; done | intros (_ & ? & ? & ? & ? & _); done]).
    rewrite contains_spec. split.
    + intros (Hr & a & b & Hs). eauto 10.
    + intros (Hr & s' & a & b & [= <-] & Hs). eauto.
  - intros r Hr Hd. rewrite elem_of_list_filter.
    unfold dict_get_default. rewrite Hd. cbn.
    rewrite contains_in_empty. tauto.
Qed.

(** The rows of the table are the formatted first records, up to the
    limit. *)
Lemma table_rows_take (hs : list string) (max_rows : option Z) (data : list record) :
  forall i : Z,
    ViewAnnouncements.table_rows hs max_rows i data
    = map (fun row =>
             map (fun h => ViewAnnouncements.format_cell
                             (dict_get_default h (PStr "") row)) hs)
          (take (if ViewAnnouncements.limited max_rows
                 then Z.to_nat (default 0 max_rows - i)
                 else length data)
                data).
Proof.
  induction data as [|row data IH]; intros i.
  - by rewrite take_nil.
  - cbn [ViewAnnouncements.table_rows].
    destruct (ViewAnnouncements.limited max_rows) eqn:Hlim; cbn [andb].
    + destruct (default 0 max_rows <=? i) eqn:Hle.
      * apply Z.leb_le in Hle.
        replace (Z.to_nat (default 0 max_rows - i)) with 0%nat by lia. done.
      * apply Z.leb_gt in Hle. rewrite IH ?Hlim.
        replace (Z.to_nat (default 0 max_rows - i))
          with (S (Z.to_nat (default 0 max_rows - (i + 1)))) by lia.
        done.
    + rewrite IH ?Hlim. done.
Qed.

Lemma display_data_table_rows (first : record) (rest : list record) (max_rows : option Z) :
  exists info,
    ViewAnnouncements.display_data_table (first :: rest) max_rows
    = Some {| ViewAnnouncements.headers := dict_keys first;
              ViewAnnouncements.table_data :=
                map (fun row =>
                       map (fun h => ViewAnnouncements.format_cell
                                       (dict_get_default h (PStr "") row))
                           (dict_keys first))
                    (take (if ViewAnnouncements.limited max_rows
                           then Z.to_nat (default 0 max_rows)
                           else length (first :: rest))
                          (first :: rest));
              ViewAnnouncements.count_info := info |}.
Proof.
  unfold ViewAnnouncements.display_data_table. rewrite table_rows_take.
  rewrite Z.sub_0_r. eauto.
Qed.

(** X5: [display_data_table] shows nothing for an empty list. Otherwise
    its columns are the fields of the first record; without a limit, or
    with the limit 0, every record gets a row, and with a limit [m] other
    than 0 the first [m] records do (none when [m] is negative); every row
    has one cell per column; and the line "showing m of n" is printed
    exactly when the limit is not 0 and smaller than the number of
    records. *)
Theorem display_data_table_shape (data : list record) (max_rows : option Z) :
  (data = [] -> ViewAnnouncements.display_data_table data max_rows = None)
  /\ forall first rest,
       data = first :: rest ->
       exists t,
         ViewAnnouncements.display_data_table data max_rows = Some t
         /\ ViewAnnouncements.headers t = dict_keys first
         /\ length (ViewAnnouncements.table_data t)
            = match max_rows with
              | None => length data
              | Some m => if m =? 0 then length data
                          else Nat.min (Z.to_nat m) (length data)
              end
         /\ Forall (fun row => length row = length (ViewAnnouncements.headers t))
                   (ViewAnnouncements.table_data t)
         /\ (forall m n,
                ViewAnnouncements.count_info t = Some (m, n)
                <-> max_rows = Some m /\ m <> 0 /\ m < Z.of_nat (length data)
                    /\ n = length data).
Proof.
  split; [by intros ->|].
  intros first rest ->. eexists. split; [reflexivity|].
  cbn [ViewAnnouncements.headers ViewAnnouncements.table_data
         ViewAnnouncements.count_info].
  split; [done|]. rewrite table_rows_take. split; [|split].
  - rewrite length_map length_take.
    destruct max_rows as [m|]; cbn [ViewAnnouncements.limited default from_option id].
    + unfold record, dict.
      destruct (m =? 0) eqn:Hm; cbn [negb]; rewrite ?Z.sub_0_r; lia.
    + unfold record, dict. lia.
  - apply Forall_fmap, Forall_true. intros r. cbn. by rewrite length_map.
  - intros m n.
    destruct max_rows as [m'|]; cbn [ViewAnnouncements.limited default from_option id andb].
    + destruct (m' =? 0) eqn:Hm; cbn [negb andb].
      * apply Z.eqb_eq in Hm. split; [done|]. intros ([= ->] & ? & _). done.
      * apply Z.eqb_neq in Hm.
        destruct (m' <? Z.of_nat (length (first :: rest))) eqn:Hlt.
        -- apply Z.ltb_lt in Hlt. split.
           ++ by intros [= <- <-].
           ++ by intros ([= ->] & _ & _ & ->).
        -- apply Z.ltb_ge in Hlt. split; [done|].
           intros ([= ->] & _ & ? & _). lia.
    + split; [done|]. by intros [? _].
Qed.

(** X6: the cell of a displayed record under a column is [format_cell] of
    the record's value for that field of the first record, and the empty
    string when the record lacks the field; a field that only later
    records have is not shown at all. *)
Theorem display_data_table_cells (first : record) (rest : list record)
    (max_rows : option Z) (t : ViewAnnouncements.table)
    (i : nat) (r : record) (row : list pyval) :
  ViewAnnouncements.display_data_table (first :: rest) max_rows = Some t ->
  (first :: rest) !! i = Some r ->
  ViewAnnouncements.table_data t !! i = Some row ->
  length row = length (dict_keys first)
  /\ forall j h,
       dict_keys first !! j = Some h ->
       row !! j = Some (ViewAnnouncements.format_cell (dict_get_default h (PStr "") r))
       /\ (dict_get h r = None -> row !! j = Some (PStr "")).
Proof.
  destruct (display_data_table_rows first rest max_rows) as [info ->].
  intros [= <-] Hr. cbn [ViewAnnouncements.table_data].
  rewrite list_lookup_fmap. intros Hrow.
  match type of Hrow with
  | _ <$> ?o = _ => destruct o as [r'|] eqn:Htake; [|done]
  end.
  injection Hrow as <-.
  assert (r' = r) as ->.
  { apply lookup_take_Some in Htake as [Htake _].
    unfold record, dict in *. rewrite Hr in Htake. by injection Htake. }
  split; [by rewrite length_map|].
  intros j h Hh.
  assert (map (fun h => ViewAnnouncements.format_cell (dict_get_default h (PStr "") r))
              (dict_keys first) !! j
          = Some (ViewAnnouncements.format_cell (dict_get_default h (PStr "") r))) as Hcell.
  { by rewrite list_lookup_fmap Hh. }
  split; [done|]. intros Hnone. rewrite Hcell.
  unfold dict_get_default. by rewrite Hnone.
Qed.

Lemma display_data_table_cells_witness :
  ViewAnnouncements.display_data_table
    [[("SYMBOL", PStr "ACME"); ("SUBJECT", PStr "Dividend")];
     [("SUBJECT", PStr "Results"); ("XBRL", PStr "x.xml")]]
    (Some 20)
  = Some {| ViewAnnouncements.headers := ["SYMBOL"; "SUBJECT"];
            ViewAnnouncements.table_data :=
              [[PStr "ACME"; PStr "Dividend"]; [PStr ""; PStr "Results"]];
            ViewAnnouncements.count_info := None |}
  /\ length [PStr ""; PStr "Results"] = 2%nat.
Proof.
  split; [reflexivity|].
  apply (display_data_table_cells
           [("SYMBOL", PStr "ACME"); ("SUBJECT", PStr "Dividend")]
           [[("SUBJECT", PStr "Results"); ("XBRL", PStr "x.xml")]]
           (Some 20) _ 1%nat _ _ eq_refl eq_refl eq_refl).
Defined.

(** X7: the viewers differ exactly in the tag. On a dict with a [text]
    whose [type] is ["pdf"] or ["xbrl"], [format_cell] of the announcement
    viewer gives what [format_cell] of the event viewer gives, as a
    string, followed by [" [PDF]"] or [" [XBRL]"]; on every other value
    the two give the same. The value that the CSV export writes for a rich
    cell with a [text] is what the event viewer displays, without a
    tag. *)
Theorem format_cell_viewers_agree (value : pyval) :
  (forall d text,
      value = PDict d -> dict_get "text" d = Some text ->
      (dict_get "type" d = Some (PStr "pdf") ->
       ViewAnnouncements.format_cell value
       = PStr (str (ViewLatest.format_cell value) +:+ " [PDF]"))
      /\ (dict_get "type" d = Some (PStr "xbrl") ->
          ViewAnnouncements.format_cell value
          = PStr (str (ViewLatest.format_cell value) +:+ " [XBRL]"))
      /\ ViewAnnouncements.flatten_cell (Some value) = Some (ViewLatest.format_cell value))
  /\ ((forall d, value = PDict d ->
         dict_get "text" d = None
         \/ (dict_get "type" d <> Some (PStr "pdf")
             /\ dict_get "type" d <> Some (PStr "xbrl"))) ->
      ViewAnnouncements.format_cell value = ViewLatest.format_cell value).
Proof.
  split.
  - intros d text -> Htext.
    cbn [ViewAnnouncements.format_cell ViewLatest.format_cell
         ViewAnnouncements.flatten_cell].
    unfold dict_get_default. rewrite Htext. split; [|split; [|done]].
    + intros ->. done.
    + intros ->. done.
  - intros Hplain. destruct value as [| | | | |d]; try done.
    cbn [ViewAnnouncements.format_cell ViewLatest.format_cell].
    destruct (Hplain d eq_refl) as [-> | [Hpdf Hxbrl]]; [done|].
    apply eq_str_false in Hpdf, Hxbrl. rewrite Hpdf Hxbrl.
    by destruct (dict_get "text" d).
Qed.

(** ** Statistics *)

Lemma key_eq_sym (a b : pyval) : Hashed.key_eq a b = Hashed.key_eq b a.
Proof.
  destruct a as [|[]|x|x| |], b as [|[]|y|y| |]; unfold Hashed.key_eq;
    try reflexivity; try apply Z.eqb_sym; apply String.eqb_sym.
Qed.

Lemma key_eq_refl (a : pyval) : Hashed.hashable a = true -> Hashed.key_eq a a = true.
Proof.
  destruct a as [|[]|x|x| |]; cbn; try done.
  - intros _. apply Z.eqb_refl.
  - intros _. apply String.eqb_refl.
Qed.

Lemma count_set_sum k n d :
  fold_right Z.add 0 (map snd (Hashed.count_set k n d))
  = fold_right Z.add 0 (map snd d) - Hashed.count_get k d + n.
Proof.
  induction d as [|[k' n'] d IH]; cbn [Hashed.count_set Hashed.count_get].
  - cbn. lia.
  - destruct (Hashed.key_eq k k'); cbn [map fold_right snd]; [lia|].
    rewrite IH. lia.
Qed.

Lemma count_get_pos k d :
  Forall (fun kn => 1 <= kn.2) d -> 0 <= Hashed.count_get k d.
Proof.
  induction 1 as [|[k' n'] d Hn _ IH]; cbn [Hashed.count_get]; [done|].
  destruct (Hashed.key_eq k k'); cbn in Hn; lia.
Qed.

Lemma count_set_pos k n d :
  1 <= n -> Forall (fun kn => 1 <= kn.2) d ->
  Forall (fun kn => 1 <= kn.2) (Hashed.count_set k n d).
Proof.
  intros Hn. induction 1 as [|[k' n'] d Hn' Hd IH]; cbn [Hashed.count_set].
  - by repeat constructor.
  - destruct (Hashed.key_eq k k'); by constructor.
Qed.

(** Setting a count keeps the keys, or appends a key equal to none. *)
Lemma count_set_keys k n d :
  (Hashed.count_set k n d).*1 = d.*1
  \/ ((Hashed.count_set k n d).*1 = d.*1 ++ [k]
      /\ Forall (fun k' => Hashed.key_eq k' k = false) (d.*1)).
Proof.
  induction d as [|[k' n'] d IH]; cbn [Hashed.count_set].
  - right. by split.
  - destruct (Hashed.key_eq k k') eqn:E; [by left|].
    cbn [fmap list_fmap fst]. destruct IH as [-> | [-> Hall]]; [by left|].
    right. split; [done|]. constructor; [|done]. by rewrite key_eq_sym.
Qed.

Lemma count_set_distinct k n d :
  StronglySorted (fun a b => Hashed.key_eq a b = false) (d.*1) ->
  StronglySorted (fun a b => Hashed.key_eq a b = false) ((Hashed.count_set k n d).*1).
Proof.
  intros Hd. destruct (count_set_keys k n d) as [-> | [-> Hall]]; [done|].
  apply StronglySorted_app_2; [|done|apply SSorted_cons; constructor].
  intros x1 x2 Hx1 ->%list_elem_of_singleton.
  by eapply list.Forall_forall in Hall.
Qed.

(** What the loop of [get_statistics] keeps true. *)
Lemma count_announcements_inv (data : list record) :
  forall st st',
    ViewAnnouncements.count_announcements st data = Some st' ->
    Forall (fun kn => 1 <= kn.2) (ViewAnnouncements.subjects st) ->
    StronglySorted (fun a b => Hashed.key_eq a b = false)
                   ((ViewAnnouncements.subjects st).*1) ->
    ViewAnnouncements.total_announcements st' = ViewAnnouncements.total_announcements st
    /\ fold_right Z.add 0 (map snd (ViewAnnouncements.subjects st'))
       = fold_right Z.add 0 (map snd (ViewAnnouncements.subjects st))
         + Z.of_nat (length data)
    /\ Forall (fun kn => 1 <= kn.2) (ViewAnnouncements.subjects st')
    /\ StronglySorted (fun a b => Hashed.key_eq a b = false)
                      ((ViewAnnouncements.subjects st').*1)
    /\ ViewAnnouncements.has_pdf st <= ViewAnnouncements.has_pdf st'
       <= ViewAnnouncements.has_pdf st + Z.of_nat (length data)
    /\ ViewAnnouncements.has_xbrl st <= ViewAnnouncements.has_xbrl st'
       <= ViewAnnouncements.has_xbrl st + Z.of_nat (length data).
Proof.
  induction data as [|r data IH]; intros st st' Hrun Hpos Hdist.
  - injection Hrun as <-. cbn [length]. repeat split; try done; lia.
  - cbn [ViewAnnouncements.count_announcements] in Hrun.
    destruct (ViewAnnouncements.count_announcement st r) as [st1|] eqn:Hone; [|done].
    unfold ViewAnnouncements.count_announcement in Hone.
    destruct (if truthy _ then _ else _) as [companies|]; [|done].
    unfold Hashed.count_up in Hone.
    destruct (Hashed.hashable _); [|done].
    injection Hone as <-.
    apply IH in Hrun; cbn [ViewAnnouncements.subjects] in *.
    + destruct Hrun as (Htotal & Hsum & Hpos' & Hdist' & Hpdf & Hxbrl).
      cbn [ViewAnnouncements.total_announcements ViewAnnouncements.has_pdf
             ViewAnnouncements.has_xbrl] in *.
      rewrite count_set_sum in Hsum.
      split; [done|]. split; [rewrite Hsum; cbn [length]; lia|].
      split; [done|]. split; [done|].
      split.
      * destruct (match dict_get_default "ATTACHMENT" _ r with PDict _ => _ | _ => _ end);
          cbn [length]; lia.
      * destruct (match dict_get_default "XBRL" _ r with PDict _ => _ | _ => _ end);
          cbn [length]; lia.
    + apply count_set_pos; [|done]. pose proof (count_get_pos
        (dict_get_default "SUBJECT" (PStr "Unknown") r) _ Hpos). lia.
    + by apply count_set_distinct.
Qed.

Lemma count_announcement_ok (st : ViewAnnouncements.stats) (r : record) :
  Hashed.hashable (dict_get_default "SUBJECT" (PStr "Unknown") r) = true ->
  (Hashed.hashable (dict_get_default "COMPANY NAME" (PStr "") r) = true
   \/ truthy (dict_get_default "COMPANY NAME" (PStr "") r) = false) ->
  is_Some (ViewAnnouncements.count_announcement st r).
Proof.
  intros Hs Hc. unfold ViewAnnouncements.count_announcement, Hashed.count_up,
    Hashed.set_add.
  rewrite Hs. destruct Hc as [Hc | Hc]; rewrite Hc;
    [destruct (truthy (dict_get_default "COMPANY NAME" (PStr "") r))|]; by eexists.
Qed.

(** X8: when the subject of every announcement is a string, a number, a
    truth value or [None], and its company name is one of these or empty,
    [get_statistics] returns, and in what it returns the total is the number
    of announcements, the counts of the subjects add up to that number,
    every subject listed has a count of at least 1, no two subjects listed
    are equal, and the numbers of PDF and XBRL attachments lie between 0
    and the total. *)
Theorem get_statistics_counts (data : list record) :
  (forall r, r ∈ data ->
     Hashed.hashable (dict_get_default "SUBJECT" (PStr "Unknown") r) = true
     /\ (Hashed.hashable (dict_get_default "COMPANY NAME" (PStr "") r) = true
         \/ truthy (dict_get_default "COMPANY NAME" (PStr "") r) = false)) ->
  exists st,
    ViewAnnouncements.get_statistics data = Some st
    /\ ViewAnnouncements.total_announcements st = length data
    /\ fold_right Z.add 0 (map snd (ViewAnnouncements.subjects st))
       = Z.of_nat (length data)
    /\ Forall (fun kn => 1 <= kn.2) (ViewAnnouncements.subjects st)
    /\ StronglySorted (fun a b => Hashed.key_eq a b = false)
                      ((ViewAnnouncements.subjects st).*1)
    /\ 0 <= ViewAnnouncements.has_pdf st <= Z.of_nat (length data)
    /\ 0 <= ViewAnnouncements.has_xbrl st <= Z.of_nat (length data).
Proof.
  intros Hok. unfold ViewAnnouncements.get_statistics.
  set (st0 := {| ViewAnnouncements.total_announcements := length data;
                 ViewAnnouncements.unique_companies := [];
                 ViewAnnouncements.subjects := [];
                 ViewAnnouncements.has_pdf := 0;
                 ViewAnnouncements.has_xbrl := 0 |}).
  assert (forall st, is_Some (ViewAnnouncements.count_announcements st data)) as Hsome.
  { clear st0. induction data as [|r data IH]; intros st; [by eexists|].
    cbn [ViewAnnouncements.count_announcements].
    destruct (Hok r) as [Hs Hc]; [left|].
    destruct (count_announcement_ok st r Hs Hc) as [st1 ->].
    apply IH. intros r' Hr'. apply Hok. by right. }
  destruct (Hsome st0) as [st Hst]. exists st. split; [done|].
  apply count_announcements_inv in Hst; [|by constructor..].
  cbn [st0 ViewAnnouncements.total_announcements ViewAnnouncements.subjects
         ViewAnnouncements.has_pdf ViewAnnouncements.has_xbrl map fold_right] in Hst.
  destruct Hst as (? & ? & ? & ? & ? & ?). repeat split; try done; lia.
Qed.

Lemma get_statistics_counts_witness :
  exists st,
    ViewAnnouncements.get_statistics
      [[("COMPANY NAME", PStr "Acme"); ("SUBJECT", PStr "Dividend");
        ("ATTACHMENT", PDict [("text", PStr "a"); ("type", PStr "pdf")])];
       [("COMPANY NAME", PStr "Bolt"); ("SUBJECT", PStr "Results")];
       [("SUBJECT", PStr "Dividend")]]
    = Some st
    /\ fold_right Z.add 0 (map snd (ViewAnnouncements.subjects st)) = 3.
Proof.
  destruct (get_statistics_counts
              [[("COMPANY NAME", PStr "Acme"); ("SUBJECT", PStr "Dividend");
                ("ATTACHMENT", PDict [("text", PStr "a"); ("type", PStr "pdf")])];
               [("COMPANY NAME", PStr "Bolt"); ("SUBJECT", PStr "Results")];
               [("SUBJECT", PStr "Dividend")]])
    as (st & Hst & _ & Hsum & _).
  - intros r Hr. apply list_elem_of_In in Hr. cbn in Hr.
    destruct Hr as [<- | [<- | [<- | []]]]; split; (reflexivity || (left; reflexivity)).
  - exists st. split; [exact Hst | exact Hsum].
Defined.

(** X9: [get_statistics] raises (here: gives no result) as soon as one
    announcement has a subject that cannot be a dict key, such as a rich
    cell or a list, or a company name that is a non-empty dict or list:
    the statistics of the whole file are lost. *)
Theorem get_statistics_raises (data : list record) (r : record) :
  r ∈ data ->
  Hashed.hashable (dict_get_default "SUBJECT" (PStr "Unknown") r) = false
  \/ (truthy (dict_get_default "COMPANY NAME" (PStr "") r) = true
      /\ Hashed.hashable (dict_get_default "COMPANY NAME" (PStr "") r) = false) ->
  ViewAnnouncements.get_statistics data = None.
Proof.
  intros Hr Hbad. unfold ViewAnnouncements.get_statistics.
  generalize ({| ViewAnnouncements.total_announcements := length data;
                 ViewAnnouncements.unique_companies := [];
                 ViewAnnouncements.subjects := [];
                 ViewAnnouncements.has_pdf := 0;
                 ViewAnnouncements.has_xbrl := 0 |}).
  assert (forall st, ViewAnnouncements.count_announcement st r = None) as Hone.
  { intros st. unfold ViewAnnouncements.count_announcement, Hashed.count_up,
      Hashed.set_add.
    destruct Hbad as [-> | [-> ->]]; [|done].
    by destruct (if truthy _ then _ else _). }
  induction data as [|r' data IH]; intros st.
  - by apply elem_of_nil in Hr.
  - cbn [ViewAnnouncements.count_announcements].
    apply elem_of_cons in Hr as [<- | Hr]; [by rewrite Hone|].
    destruct (ViewAnnouncements.count_announcement st r'); [by apply IH | done].
Qed.

Lemma get_statistics_raises_witness :
  ViewAnnouncements.get_statistics
    [[("SUBJECT", PStr "Dividend")];
     [("SUBJECT", PDict [("text", PStr "Outcome"); ("type", PStr "pdf")])]]
  = None.
Proof.
  apply (get_statistics_raises _
           [("SUBJECT", PDict [("text", PStr "Outcome"); ("type", PStr "pdf")])]).
  - right. left.
  - left. reflexivity.
Defined.

Lemma count_up_single k n d' :
  Hashed.count_up k [(k, n)] = Some d' -> d' = [(k, n + 1)].
Proof.
  unfold Hashed.count_up. destruct (Hashed.hashable k) eqn:Hk; [|done].
  intros [= <-]. cbn [Hashed.count_get Hashed.count_set]. by rewrite key_eq_refl.
Qed.

Lemma count_announcements_single (k : pyval) (data : list record) :
  forall st st' n,
    ViewAnnouncements.count_announcements st data = Some st' ->
    (forall r, r ∈ data -> dict_get_default "SUBJECT" (PStr "Unknown") r = k) ->
    ViewAnnouncements.subjects st = [(k, n)] ->
    ViewAnnouncements.subjects st' = [(k, n + Z.of_nat (length data))].
Proof.
  induction data as [|r data IH]; intros st st' n Hrun Hall Hst.
  - injection Hrun as <-. rewrite Hst. cbn [length]. do 2 f_equal. lia.
  - cbn [ViewAnnouncements.count_announcements] in Hrun.
    destruct (ViewAnnouncements.count_announcement st r) as [st1|] eqn:Hone; [|done].
    unfold ViewAnnouncements.count_announcement in Hone.
    destruct (if truthy _ then _ else _) as [companies|]; [|done].
    rewrite (Hall r) in Hone; [left|]. rewrite Hst in Hone.
    destruct (Hashed.count_up k [(k, n)]) as [d'|] eqn:Hup; [|done].
    apply count_up_single in Hup as ->. injection Hone as <-.
    apply (IH _ _ (n + 1)) in Hrun; [| |done].
    + rewrite Hrun. cbn [length]. do 2 f_equal. lia.
    + intros r' Hr'. apply Hall. by right.
Qed.

(** X10: when every announcement of a non-empty list has the same
    subject, the subjects of [get_statistics], if it returns, are that one
    subject with the number of announcements as its count. *)
Theorem get_statistics_single_subject (data : list record) (k : pyval)
    (st : ViewAnnouncements.stats) :
  ViewAnnouncements.get_statistics data = Some st ->
  data <> [] ->
  (forall r, r ∈ data -> dict_get_default "SUBJECT" (PStr "Unknown") r = k) ->
  ViewAnnouncements.subjects st = [(k, Z.of_nat (length data))].
Proof.
  unfold ViewAnnouncements.get_statistics. intros Hrun Hne Hall.
  destruct data as [|r data]; [done|].
  cbn [ViewAnnouncements.count_announcements] in Hrun.
  destruct (ViewAnnouncements.count_announcement _ r) as [st1|] eqn:Hone; [|done].
  unfold ViewAnnouncements.count_announcement in Hone.
  destruct (if truthy _ then _ else _) as [companies|]; [|done].
  rewrite (Hall r) in Hone; [left|]. cbn [ViewAnnouncements.subjects] in Hone.
  unfold Hashed.count_up in Hone. destruct (Hashed.hashable k); [|done].
  cbn [Hashed.count_get Hashed.count_set Z.add] in Hone. injection Hone as <-.
  apply (count_announcements_single k _ _ _ 1) in Hrun; [| |done].
  - rewrite Hrun. cbn [length]. do 2 f_equal. lia.
  - intros r' Hr'. apply Hall. by right.
Qed.

Lemma get_statistics_single_subject_witness :
  exists st,
    ViewAnnouncements.get_statistics
      [[("SYMBOL", PStr "ACME"); ("SUBJECT", PStr "Dividend")];
       [("SYMBOL", PStr "BOLT"); ("SUBJECT", PStr "Dividend")]]
    = Some st
    /\ ViewAnnouncements.subjects st = [(PStr "Dividend", 2)].
Proof.
  eexists. split; [reflexivity|].
  apply (get_statistics_single_subject
           [[("SYMBOL", PStr "ACME"); ("SUBJECT", PStr "Dividend")];
            [("SYMBOL", PStr "BOLT"); ("SUBJECT", PStr "Dividend")]]
           (PStr "Dividend") _ eq_refl).
  - discriminate.
  - intros r Hr. apply list_elem_of_In in Hr. cbn in Hr.
    destruct Hr as [<- | [<- | []]]; reflexivity.
Defined.

Lemma insert_desc_perm {K} (x : K * Z) (l : list (K * Z)) :
  Hashed.insert_desc x l ≡ₚ x :: l.
Proof.
  induction l as [|y l IH]; cbn [Hashed.insert_desc]; [done|].
  destruct (y.2 <? x.2); [done|]. rewrite IH. apply Permutation_swap.
Qed.

Lemma insert_desc_sorted {K} (x : K * Z) (l : list (K * Z)) :
  StronglySorted (fun a b => b.2 <= a.2) l ->
  StronglySorted (fun a b => b.2 <= a.2) (Hashed.insert_desc x l).
Proof.
  induction 1 as [|y l Hl IH Hy]; cbn [Hashed.insert_desc].
  - apply SSorted_cons; constructor.
  - destruct (y.2 <? x.2) eqn:Hlt.
    + apply Z.ltb_lt in Hlt. apply SSorted_cons; [by apply SSorted_cons|].
      constructor; [lia|]. eapply Forall_impl; [exact Hy|]. cbn. intros z Hz. lia.
    + apply Z.ltb_ge in Hlt. apply SSorted_cons; [done|].
      rewrite (insert_desc_perm x l). by constructor.
Qed.

Lemma sorted_desc_spec {K} (items : list (K * Z)) :
  StronglySorted (fun a b => b.2 <= a.2) (Hashed.sorted_desc items)
  /\ Hashed.sorted_desc items ≡ₚ items.
Proof.
  unfold Hashed.sorted_desc.
  assert (forall acc : list (K * Z),
            StronglySorted (fun a b => b.2 <= a.2) acc ->
            StronglySorted (fun a b => b.2 <= a.2)
              (fold_left (fun acc x => Hashed.insert_desc x acc) items acc)
            /\ fold_left (fun acc x => Hashed.insert_desc x acc) items acc ≡ₚ acc ++ items)
    as Hgen.
  { induction items as [|x items IH]; intros acc Hacc; cbn [fold_left].
    - by rewrite app_nil_r.
    - destruct (IH (Hashed.insert_desc x acc)) as [Hs Hp];
        [by apply insert_desc_sorted|].
      split; [done|]. rewrite Hp insert_desc_perm. cbn [app].
      apply Permutation_middle. }
  destruct (Hgen []) as [Hs Hp]; [constructor|]. done.
Qed.

(** X11: the subjects printed by [display_statistics] are the up to 15
    most frequent ones, most frequent first: they are in descending order
    of count, there are 15 of them or as many as there are subjects, and
    together with the subjects left out they are the subjects of the
    statistics, none of those left out having a higher count than one
    printed. *)
Theorem top_subjects_are_most_frequent (st : ViewAnnouncements.stats) :
  exists left_out,
    ViewAnnouncements.top_subjects st ++ left_out ≡ₚ ViewAnnouncements.subjects st
    /\ StronglySorted (fun a b => b.2 <= a.2) (ViewAnnouncements.top_subjects st)
    /\ length (ViewAnnouncements.top_subjects st)
       = Nat.min 15 (length (ViewAnnouncements.subjects st))
    /\ forall x y,
         x ∈ ViewAnnouncements.top_subjects st -> y ∈ left_out -> y.2 <= x.2.
Proof.
  unfold ViewAnnouncements.top_subjects.
  destruct (sorted_desc_spec (ViewAnnouncements.subjects st)) as [Hs Hp].
  exists (drop 15 (Hashed.sorted_desc (ViewAnnouncements.subjects st))).
  rewrite take_drop. split; [done|].
  rewrite -(take_drop 15 (Hashed.sorted_desc _)) in Hs.
  apply StronglySorted_app in Hs as (Hcross & Htop & _).
  split; [done|]. split; [|exact Hcross].
  rewrite length_take. by rewrite Hp.
Qed.

Lemma insert_desc_ties {K} (x : K * Z) (l : list (K * Z)) (c : Z) :
  StronglySorted (fun a b => b.2 <= a.2) l ->
  List.filter (fun y => y.2 =? c) (Hashed.insert_desc x l)
  = List.filter (fun y => y.2 =? c) l ++ (if x.2 =? c then [x] else []).
Proof.
  induction 1 as [|y l Hl IH Hy]; cbn [Hashed.insert_desc].
  - cbn [List.filter app]. by destruct (x.2 =? c).
  - destruct (y.2 <? x.2) eqn:Hlt.
    + apply Z.ltb_lt in Hlt. cbn [List.filter].
      destruct (x.2 =? c) eqn:Hx; [|by rewrite app_nil_r].
      apply Z.eqb_eq in Hx.
      assert (List.filter (fun y0 : K * Z => y0.2 =? c) l = []) as ->.
      { clear -Hy Hlt Hx. induction Hy as [|z l Hz _ IH]; [done|].
        cbn [List.filter]. rewrite IH.
        destruct (z.2 =? c) eqn:Hzc; [|done]. apply Z.eqb_eq in Hzc. lia. }
      destruct (y.2 =? c) eqn:Hyc; [|done]. apply Z.eqb_eq in Hyc. lia.
    + cbn [List.filter]. rewrite IH. by destruct (y.2 =? c).
Qed.

(** X20: among subjects of equal count, [display_statistics] keeps the
    order in which the statistics hold them, that is the order in which
    they were first seen: for every count, the subjects of that count
    come in the printed list, followed by the ones left out, as they come
    in the statistics. *)
Theorem top_subjects_keep_ties_in_order (st : ViewAnnouncements.stats) :
  exists left_out,
    ViewAnnouncements.top_subjects st ++ left_out
    = Hashed.sorted_desc (ViewAnnouncements.subjects st)
    /\ length left_out = (length (ViewAnnouncements.subjects st) - 15)%nat
    /\ forall c,
         List.filter (fun y => y.2 =? c) (ViewAnnouncements.top_subjects st ++ left_out)
         = List.filter (fun y => y.2 =? c) (ViewAnnouncements.subjects st).
Proof.
  unfold ViewAnnouncements.top_subjects.
  exists (drop 15 (Hashed.sorted_desc (ViewAnnouncements.subjects st))).
  rewrite take_drop. split; [done|]. split.
  { rewrite length_drop.
    destruct (sorted_desc_spec (ViewAnnouncements.subjects st)) as [_ Hp].
    by rewrite Hp. }
  intros c. unfold Hashed.sorted_desc.
  generalize (ViewAnnouncements.subjects st). intros items.
  assert (forall acc : list (pyval * Z),
            StronglySorted (fun a b => b.2 <= a.2) acc ->
            List.filter (fun y => y.2 =? c)
              (fold_left (fun acc x => Hashed.insert_desc x acc) items acc)
            = List.filter (fun y => y.2 =? c) acc
              ++ List.filter (fun y => y.2 =? c) items) as Hgen.
  { induction items as [|x items IH]; intros acc Hacc; cbn [fold_left].
    - by rewrite app_nil_r.
    - rewrite IH; [by apply insert_desc_sorted|].
      rewrite insert_desc_ties // -app_assoc. cbn [List.filter].
      by destruct (x.2 =? c). }
  by rewrite Hgen; [constructor|].
Qed.

(** * Further properties of the fetcher *)

(** X12: a call of [fetch_all_pages] changes no dict that it shares with
    its callers other than the [params] it is given: every dict that was
    there before the call is as it was, but for the caller's [params]; no
    file is written, and the requests it adds all go to the given
    endpoint. This holds also when the call raises. *)
Theorem fetch_all_pages_frame_heap (server : remote) (now endpoint : string) (fuel : nat)
    (caller : option loc) (d0 : dict pyval) (w : world)
    (r : result dataset) (w' : world) :
  match caller with
  | Some q => heap w !! q = Some d0
  | None => d0 = []
  end ->
  fetch_all_pages server now fuel endpoint caller w = Some (r, w') ->
  files w' = files w
  /\ (exists sent,
        requests w' = requests w ++ sent
        /\ Forall (fun rq => rq.1 = BASE_URL +:+ endpoint) sent)
  /\ (forall q' d,
        caller <> Some q' -> heap w !! q' = Some d -> heap w' !! q' = Some d).
Proof.
  intros Hparams Hrun.
  assert (exists q w0 r0,
            heap w0 !! q = Some d0 /\ requests w0 = requests w /\ files w0 = files w
            /\ match caller with
               | Some q' => q = q' /\ w0 = w
               | None => q = length (heap w) /\ heap w0 = heap w ++ [[]]
               end
            /\ while_loop server fuel endpoint q
                 {| page := 1; total_pages := PInt 1;
                    last_metadata := PDict []; all_data := [] |} w0
               = Some (r0, w')) as (q & w0 & r0 & Hd0 & Hreq0 & Hfiles0 & Hq & Hloop).
  { unfold fetch_all_pages, bind in Hrun. destruct caller as [q|].
    - cbn [ret] in Hrun.
      destruct (while_loop server fuel endpoint q _ w) as [[r0 w1]|] eqn:Hloop; [|done].
      exists q, w, r0. repeat split; try done.
      destruct r0; injection Hrun as <- <-; done.
    - subst d0. cbn [alloc] in Hrun.
      destruct (while_loop server fuel endpoint _ _ _) as [[r0 w1]|] eqn:Hloop; [|done].
      exists (length (heap w)),
        {| heap := heap w ++ [[]]; requests := requests w; files := files w |}, r0.
      cbn [heap requests files].
      split; [by rewrite lookup_app_r // Nat.sub_diag|].
      split; [done|]. split; [done|]. split; [done|].
      destruct r0; injection Hrun as <- <-; exact Hloop. }
  destruct (while_loop_trace server endpoint q fuel _ w0 d0 r0 w' Hd0 Hloop)
    as (n & Hreq & Hfiles & Hzero & Hheap & _).
  split; [congruence|]. split.
  { eexists. split; [by rewrite Hreq Hreq0|].
    apply Forall_fmap, Forall_true. done. }
  assert (heap w' = heap w0 \/ exists d, heap w' = <[q := d]> (heap w0)) as Hw'.
  { destruct n as [|n]; [left; by rewrite Hzero | right; eexists; by apply Hheap]. }
  intros q1 d1 Hne Hd1.
  assert (q1 <> q /\ heap w0 !! q1 = Some d1) as [Hq1 Hd1'].
  { destruct caller as [q'|].
    - destruct Hq as [-> ->]. split; [congruence | done].
    - destruct Hq as [-> ->]. apply lookup_lt_Some in Hd1 as Hlt.
      split; [lia|]. by rewrite lookup_app_l.
  }
  destruct Hw' as [-> | [d ->]]; [done|].
  by rewrite list_lookup_insert_ne.
Qed.

Lemma fetch_all_pages_frame_heap_witness :
  exists r w',
    fetch_all_pages Samples.second_page_down Samples.noon 4 "/crd" None
      {| heap := [[("market", PStr "equity")]]; requests := []; files := [] |}
    = Some (r, w')
    /\ files w' = []
    /\ heap w' !! 0%nat = Some [("market", PStr "equity")].
Proof.
  eexists _, _. split; [reflexivity|].
  destruct (fetch_all_pages_frame_heap Samples.second_page_down Samples.noon "/crd" 4
              None [] {| heap := [[("market", PStr "equity")]]; requests := []; files := [] |}
              _ _ eq_refl eq_refl) as (Hfiles & _ & Hheap).
  split; [exact Hfiles | by apply Hheap].
Defined.

(** A source that always has a further page keeps the loop going. *)
Lemma while_loop_goes_on (server : remote) (endpoint : string) (q : loc)
    (d0 : dict pyval) (fuel : nat) :
  (forall i, 1 <= i ->
     exists total recs,
       i < total
       /\ page_succeeds total recs (server (BASE_URL +:+ endpoint) (request_params i d0))) ->
  forall st w d,
    heap w !! q = Some d ->
    (forall i, request_params i d = request_params i d0) ->
    1 <= page st ->
    int_le (page st) (total_pages st) = Some true ->
    while_loop server fuel endpoint q st w = None.
Proof.
  intros Hmore. induction fuel as [|fuel IH]; intros st w d Hd Hsame Hpage Hle; [done|].
  cbn [while_loop]. rewrite Hle.
  destruct (Hmore (page st) Hpage) as (total & recs & Hlt & Hok).
  rewrite -Hsame in Hok.
  destruct (loop_body_succeeds server endpoint q st d w total recs Hd Hok) as [md ->].
  apply (IH _ _ (request_params (page st) d)).
  - by apply heap_asked.
  - intros i. by rewrite request_params_again.
  - cbn [page]. lia.
  - cbn [page total_pages int_le]. f_equal. apply Z.leb_le. lia.
Qed.

(** X13: the loop has no bound of its own. Against a source whose every
    page succeeds and reports a page count beyond the page asked,
    [fetch_all_pages] does not come to an end within any number of
    iterations. *)
Theorem fetch_all_pages_may_not_end (server : remote) (now endpoint : string)
    (caller : option loc) (d0 : dict pyval) (w : world) :
  match caller with
  | Some q => heap w !! q = Some d0
  | None => d0 = []
  end ->
  (forall i, 1 <= i ->
     exists total recs,
       i < total
       /\ page_succeeds total recs (server (BASE_URL +:+ endpoint) (request_params i d0))) ->
  forall fuel, fetch_all_pages server now fuel endpoint caller w = None.
Proof.
  intros Hparams Hmore fuel.
  destruct (fetch_all_pages_start server now endpoint caller d0 w Hparams)
    as (q & w0 & Hd0 & _ & _ & _ & Hstart).
  rewrite Hstart. unfold bind.
  by rewrite (while_loop_goes_on server endpoint q d0 fuel Hmore _ w0 d0).
Qed.

Lemma fetch_all_pages_may_not_end_witness :
  fetch_all_pages Samples.ever_more Samples.noon 50 "/event-calendar" None
    Samples.no_world
  = None.
Proof.
  apply (fetch_all_pages_may_not_end Samples.ever_more Samples.noon "/event-calendar"
           None [] Samples.no_world eq_refl).
  intros i Hi. exists (i + 1), [Samples.event "ACME" "Dividend"]. split; [lia|].
  unfold Samples.ever_more. rewrite request_params_page.
  eexists _, _. by repeat split.
Defined.

(** A page that is accepted is taken, whatever its page count is. *)
Lemma loop_body_reports (server : remote) (endpoint : string) (l : loc)
    (st : locals) (d : dict pyval) (w : world) (total : pyval) (recs : list pyval) :
  heap w !! l = Some d ->
  page_reports total recs (server (BASE_URL +:+ endpoint) (request_params (page st) d)) ->
  exists md,
    loop_body server endpoint l st w
    = (Next,
       {| page := page st + 1;
          total_pages := total;
          last_metadata := md;
          all_data := all_data st ++ recs |},
       asked endpoint l (page st) d w).
Proof.
  intros Hd (body & pagination & Hreply & Hsuccess & Hpag & Htotal & Hdata).
  destruct (loop_head endpoint l (page st) d w Hd) as [Hw Hload].
  assert (dict_get_default "pagination" (PDict []) body = PDict pagination) as Hpag'
    by by rewrite /dict_get_default Hpag.
  assert (dict_get_default "total_pages" (PInt 1) pagination = total) as Htotal'
    by by rewrite /dict_get_default Htotal.
  assert (dict_get_default "data" (PList []) body = PList recs) as Hdata'
    by by rewrite /dict_get_default Hdata.
  unfold loop_body. rewrite Hw Hload Hreply.
  cbn [Z.eqb Pos.eqb negb]. rewrite Hsuccess. cbn [negb].
  rewrite Hpag' Htotal' Hdata'. cbn.
  eauto.
Qed.

(** X14: a page count that is not a number makes the call raise. If the
    pages before page [k] succeed and page [k] is accepted but carries as
    [total_pages] a value that an [int] cannot be compared with ([null], a
    string, a list, an object), the comparison at the head of the loop
    raises outside the [try]: [fetch_all_pages] returns no dataset, after
    [k] requests, and the records fetched so far are lost. *)
Theorem fetch_all_pages_raises_on_bad_total (server : remote) (now endpoint : string)
    (caller : option loc) (d0 : dict pyval) (w : world)
    (N k : Z) (recs : Z -> list pyval) (total : pyval) :
  match caller with
  | Some q => heap w !! q = Some d0
  | None => d0 = []
  end ->
  1 <= k -> (k = 1 \/ k <= N) ->
  (forall i, 1 <= i < k ->
     page_succeeds N (recs i) (server (BASE_URL +:+ endpoint) (request_params i d0))) ->
  page_reports total (recs k) (server (BASE_URL +:+ endpoint) (request_params k d0)) ->
  int_le (k + 1) total = None ->
  exists w',
    (forall fuel, (Z.to_nat k < fuel)%nat ->
       fetch_all_pages server now fuel endpoint caller w = Some (Raised, w'))
    /\ requests w'
       = requests w
         ++ map (fun i => (BASE_URL +:+ endpoint, request_params i d0)) (seqZ 1 k)
    /\ files w' = files w.
Proof.
  intros Hparams Hk HkN Hpages Hbad Hcmp.
  destruct (fetch_all_pages_start server now endpoint caller d0 w Hparams)
    as (q & w0 & Hd0 & Hreq0 & Hfiles0 & _ & Hstart).
  assert (exists st w1 d,
            (forall fuel,
                while_loop server (Z.to_nat (k - 1) + fuel) endpoint q
                  {| page := 1; total_pages := PInt 1;
                     last_metadata := PDict []; all_data := [] |} w0
                = while_loop server fuel endpoint q st w1)
            /\ page st = k
            /\ int_le (page st) (total_pages st) = Some true
            /\ heap w1 !! q = Some d
            /\ request_params k d = request_params k d0
            /\ requests w1
               = requests w
                 ++ map (fun i => (BASE_URL +:+ endpoint, request_params i d0))
                        (seqZ 1 (k - 1))
            /\ files w1 = files w)
    as (st & w1 & d & Hrun & Hpage & Hle & Hd & Hsame & Hreq & Hfiles).
  { destruct (decide (k = 1)) as [-> | Hne].
    - eexists _, w0, d0. split; [intros fuel; reflexivity|].
      repeat split; try done. by rewrite Hreq0 app_nil_r.
    - destruct (run_pages server endpoint q N recs (Z.to_nat (k - 2))
                  {| page := 1; total_pages := PInt 1;
                     last_metadata := PDict []; all_data := [] |} w0 d0)
        as (st' & w1 & Hrun & Hpage & Htotal & _ & Hheap & Hreq & Hfiles).
      + done.
      + done.
      + intros i Hi. cbn [page] in Hi. apply Hpages. lia.
      + intros _. cbn [page]. lia.
      + cbn [page] in *.
        exists st', w1, (request_params (k - 1) d0).
        split.
        { intros fuel. rewrite -Hrun. f_equal. lia. }
        split; [lia|]. split.
        { rewrite Htotal Hpage. cbn [int_le]. f_equal. apply Z.leb_le. lia. }
        split.
        { rewrite Hheap list_lookup_insert_eq; [by eapply lookup_lt_Some|].
          do 2 f_equal. lia. }
        split; [apply request_params_again|].
        split; [|congruence].
        rewrite Hreq Hreq0. do 3 f_equal. lia. }
  rewrite -Hsame in Hbad. rewrite -Hpage in Hbad.
  destruct (loop_body_reports server endpoint q st d w1 total _ Hd Hbad)
    as [md Hbody].
  eexists. split; [|split].
  - intros fuel Hfuel. rewrite Hstart. unfold bind.
    replace fuel with (Z.to_nat (k - 1) + S (S (fuel - Z.to_nat k - 1)))%nat by lia.
    rewrite Hrun. cbn [while_loop]. rewrite Hle Hbody.
    cbn [page total_pages]. rewrite -Hpage in Hcmp. rewrite Hcmp. reflexivity.
  - cbn [asked requests]. rewrite Hreq Hpage Hsame -app_assoc. f_equal.
    pose proof (seqZ_app 1 (k - 1) 1) as Happ.
    rewrite seqZ_one in Happ.
    replace (k - 1 + 1) with k in Happ by lia.
    replace (1 + (k - 1)) with k in Happ by lia.
    rewrite Happ; [lia..|]. by rewrite map_app.
  - cbn [asked files]. done.
Qed.

Lemma fetch_all_pages_raises_on_bad_total_witness :
  exists w',
    fetch_all_pages Samples.null_total Samples.noon 2 "/crd" None Samples.no_world
    = Some (Raised, w')
    /\ files w' = [].
Proof.
  destruct (fetch_all_pages_raises_on_bad_total Samples.null_total Samples.noon "/crd"
              None [] Samples.no_world 1 1 Samples.records_of PNone eq_refl)
    as (w' & Hrun & _ & Hfiles).
  - lia.
  - by left.
  - intros i Hi. lia.
  - eexists _, _. by repeat split.
  - reflexivity.
  - exists w'. split; [apply Hrun; vm_compute; lia | exact Hfiles].
Defined.

(** What a call returns: the endpoint as its source and the count of its
    records. *)
Lemma fetch_all_pages_returns server now fuel endpoint caller w ds w' :
  fetch_all_pages server now fuel endpoint caller w = Some (Returned ds, w') ->
  source ds = endpoint
  /\ fetched_at ds = now
  /\ total_records ds = Z.of_nat (length (data ds)).
Proof.
  unfold fetch_all_pages, bind. intros Hrun.
  destruct caller as [q|]; cbn [ret alloc] in Hrun.
  - destruct (while_loop server fuel endpoint q _ w) as [[[st|] w1]|]; [|done..].
    by injection Hrun as <- <-.
  - destruct (while_loop server fuel endpoint _ _ _) as [[[st|] w1]|]; [|done..].
    by injection Hrun as <- <-.
Qed.

(** X15: [fetch_event_calendar] and [fetch_crd] save whatever they fetch.
    Whenever one of them returns, it has written exactly one file,
    [event_calendar_all.json] or [crd_all.json] in the output directory,
    holding the returned dataset, whose [total_records] is the number of
    its records, zero included; when the fetch raises, no file is
    written. *)
Theorem single_fetchers_save_once (server : remote) (now : string) (fuel : nat)
    (w : world) (r : result dataset) (w' : world) :
  (fetch_event_calendar server now fuel w = Some (r, w') ->
   match r with
   | Returned ds =>
       files w'
       = files w ++ [("fetched_data/event_calendar_all.json", dataset_json w' ds)]
       /\ source ds = "/event-calendar"
       /\ total_records ds = Z.of_nat (length (data ds))
   | Raised => files w' = files w
   end)
  /\ (fetch_crd server now fuel w = Some (r, w') ->
      match r with
      | Returned ds =>
          files w' = files w ++ [("fetched_data/crd_all.json", dataset_json w' ds)]
          /\ source ds = "/crd"
          /\ total_records ds = Z.of_nat (length (data ds))
      | Raised => files w' = files w
      end).
Proof.
  split.
  - unfold fetch_event_calendar, bind. intros Hrun.
    destruct (fetch_all_pages server now fuel "/event-calendar" None w)
      as [[[ds|] w1]|] eqn:Hfetch; [| |done].
    + cbn [save_to_json write_file ret] in Hrun. injection Hrun as <- <-.
      pose proof (fetch_all_pages_returns _ _ _ _ _ _ _ _ Hfetch) as (Hs & _ & Ht).
      apply fetch_all_pages_frame in Hfetch as [Hfiles _].
      cbn [files]. rewrite Hfiles. done.
    + injection Hrun as <- <-. by apply fetch_all_pages_frame in Hfetch as [Hfiles _].
  - unfold fetch_crd, bind. intros Hrun.
    destruct (fetch_all_pages server now fuel "/crd" None w)
      as [[[ds|] w1]|] eqn:Hfetch; [| |done].
    + cbn [save_to_json write_file ret] in Hrun. injection Hrun as <- <-.
      pose proof (fetch_all_pages_returns _ _ _ _ _ _ _ _ Hfetch) as (Hs & _ & Ht).
      apply fetch_all_pages_frame in Hfetch as [Hfiles _].
      cbn [files]. rewrite Hfiles. done.
    + injection Hrun as <- <-. by apply fetch_all_pages_frame in Hfetch as [Hfiles _].
Qed.

(** The per-market loop: what it returns against what it writes. *)
Lemma fetch_markets_kept server now fuel endpoint file_prefix (markets : list string) :
  forall results w res w',
    fetch_markets server now fuel endpoint file_prefix markets results w
    = Some (Returned res, w') ->
    NoDup markets ->
    (forall m, m ∈ markets -> m ∉ dict_keys results) ->
    exists kept saved,
      res = results ++ kept
      /\ sublist (dict_keys kept) markets
      /\ Forall (fun md => 0 < total_records md.2
                           /\ total_records md.2 = Z.of_nat (length (data md.2))
                           /\ source md.2 = endpoint)
                kept
      /\ files w' = files w ++ saved
      /\ Forall2 (fun md f =>
                    f.1 = OUTPUT_DIR +:+ "/" +:+ file_prefix +:+ md.1 +:+ "_all.json"
                    /\ exists w0, f.2 = dataset_json w0 md.2)
                 kept saved.
Proof.
  induction markets as [|market markets IH]; intros results w res w' Hrun Hnd Hfresh.
  - injection Hrun as <- <-. exists [], []. rewrite !app_nil_r.
    repeat split; try done; constructor.
  - apply NoDup_cons in Hnd as [Hmarket Hnd].
    cbn [fetch_markets] in Hrun. unfold bind at 1 in Hrun. cbn [alloc] in Hrun.
    unfold bind at 1 in Hrun.
    destruct (fetch_all_pages server now fuel endpoint _ _) as [[[ds|] w1]|] eqn:Hfetch;
      [|done..].
    pose proof (fetch_all_pages_returns _ _ _ _ _ _ _ _ Hfetch) as (Hsrc & _ & Hlen).
    apply fetch_all_pages_frame in Hfetch as [Hfiles _]. cbn [files] in Hfiles.
    destruct (0 <? total_records ds) eqn:Hpos.
    + unfold bind at 1 in Hrun. cbn [save_to_json write_file] in Hrun.
      apply IH in Hrun as (kept & saved & -> & Hsub & Hall & Hsaved & Hmatch); [|done|].
      * cbn [files] in Hsaved.
        exists ((market, ds) :: kept), ((OUTPUT_DIR +:+ "/" +:+ file_prefix +:+ market
                                          +:+ "_all.json", dataset_json w1 ds) :: saved).
        split.
        { rewrite dict_set_fresh; [apply Hfresh; left|]. by rewrite -app_assoc. }
        split; [by apply sublist_skip|].
        split.
        { constructor; [|done]. cbn [snd]. split; [by apply Z.ltb_lt | done]. }
        split; [by rewrite Hsaved Hfiles -app_assoc|].
        constructor; [|done]. cbn [fst snd]. split; [done|]. eauto.
      * intros m Hm. rewrite dict_set_fresh; [apply Hfresh; left|].
        unfold dict_keys. rewrite fmap_app not_elem_of_app. split.
        -- apply Hfresh. by right.
        -- cbn. intros ->%list_elem_of_singleton. done.
    + apply IH in Hrun as (kept & saved & -> & Hsub & Hall & Hsaved & Hmatch); [|done|].
      * exists kept, saved. split; [done|]. split; [by apply sublist_cons|].
        split; [done|]. split; [congruence | done].
      * intros m Hm. apply Hfresh. by right.
Qed.

Lemma fetch_all_pages_heap server now fuel endpoint q d0 w r w' :
  heap w !! q = Some d0 ->
  fetch_all_pages server now fuel endpoint (Some q) w = Some (r, w') ->
  is_Some (heap w' !! q)
  /\ forall q', q' <> q -> heap w' !! q' = heap w !! q'.
Proof.
  intros Hd0. unfold fetch_all_pages, bind. cbn [ret]. intros Hrun.
  destruct (while_loop server fuel endpoint q _ w) as [[r0 w1]|] eqn:Hloop; [|done].
  assert (w1 = w') as -> by (destruct r0; by injection Hrun as <- <-).
  destruct (while_loop_trace server endpoint q fuel _ w d0 r0 w' Hd0 Hloop)
    as (n & _ & _ & Hzero & Hheap & _).
  destruct n as [|n].
  - rewrite Hzero //.
  - rewrite Hheap //. split.
    + rewrite list_lookup_insert_eq; [by eapply lookup_lt_Some | eauto].
    + intros q' Hne. by rewrite list_lookup_insert_ne.
Qed.

Lemma fetch_all_pages_params server now fuel endpoint q w ds w' :
  fetch_all_pages server now fuel endpoint (Some q) w = Some (Returned ds, w') ->
  params ds = q.
Proof.
  unfold fetch_all_pages, bind. cbn [ret]. intros Hrun.
  destruct (while_loop server fuel endpoint q _ w) as [[[st|] w1]|]; [|done..].
  by injection Hrun as <- <-.
Qed.

Lemma fetch_markets_steps server now fuel endpoint file_prefix (markets : list string) :
  forall results w res w',
    fetch_markets server now fuel endpoint file_prefix markets results w
    = Some (Returned res, w') ->
    NoDup markets ->
    (forall m, m ∈ markets -> m ∉ dict_keys results) ->
    exists steps : list (string * dataset * world),
      steps.*1.*1 = markets
      /\ last (w :: steps.*2) = Some w'
      /\ (forall i m ds wa wb,
            steps !! i = Some (m, ds, wa) -> (w :: steps.*2) !! i = Some wb ->
            exists q wq w1,
              alloc [("market", PStr m)] wb = Some (Returned q, wq)
              /\ fetch_all_pages server now fuel endpoint (Some q) wq = Some (Returned ds, w1)
              /\ if 0 <? total_records ds
                 then save_to_json ds (file_prefix +:+ m +:+ "_all.json") w1
                      = Some (Returned tt, wa)
                 else wa = w1)
      /\ res = results ++ List.filter (fun md => 0 <? total_records md.2) steps.*1
      /\ (forall q d, heap w !! q = Some d -> heap w' !! q = Some d)
      /\ files w'
         = files w
           ++ map (fun md => (OUTPUT_DIR +:+ "/" +:+ file_prefix +:+ md.1 +:+ "_all.json",
                              dataset_json w' md.2))
                  (List.filter (fun md => 0 <? total_records md.2) steps.*1)
      /\ Forall (fun md => total_records md.2 = Z.of_nat (length (data md.2))) steps.*1.
Proof.
  induction markets as [|market markets IH]; intros results w res w' Hrun Hnd Hfresh.
  - injection Hrun as <- <-. exists []. cbn. rewrite !app_nil_r.
    repeat split; done.
  - apply NoDup_cons in Hnd as [Hmarket Hnd].
    cbn [fetch_markets] in Hrun. unfold bind at 1 in Hrun. cbn [alloc] in Hrun.
    unfold bind at 1 in Hrun.
    match type of Hrun with
    | context [fetch_all_pages _ _ _ _ _ ?x] => set (wq := x) in *
    end.
    destruct (fetch_all_pages server now fuel endpoint _ wq) as [[[ds|] w1]|] eqn:Hfetch;
      [|done..].
    assert (heap wq !! length (heap w) = Some [("market", PStr market)]) as Hq.
    { cbn [wq heap]. by rewrite lookup_app_r // Nat.sub_diag. }
    pose proof (fetch_all_pages_params _ _ _ _ _ _ _ _ Hfetch) as Hparams.
    pose proof (fetch_all_pages_heap _ _ _ _ _ _ _ _ _ Hq Hfetch) as [Hsome Hothers].
    pose proof (fetch_all_pages_frame _ _ _ _ _ _ _ _ Hfetch) as [Hfiles Hcount].
    cbn [wq files] in Hfiles.
    assert (forall q d, heap w !! q = Some d -> heap w1 !! q = Some d) as Hkeep.
    { intros q d Hd. apply lookup_lt_Some in Hd as Hlt.
      rewrite Hothers; [lia|]. cbn [wq heap]. by rewrite lookup_app_l. }
    destruct (0 <? total_records ds) eqn:Hpos.
    + unfold bind at 1 in Hrun. cbn [save_to_json write_file] in Hrun.
      set (wa := {| heap := heap w1; requests := requests w1;
                    files := files w1 ++ _ |}) in Hrun.
      apply IH in Hrun as (steps & Hnames & Hlast & Hchain & -> & Hheap & Hsaved & Hall);
        [|done|].
      * exists ((market, ds, wa) :: steps). cbn [fmap list_fmap fst snd].
        split; [by rewrite -Hnames|]. split; [done|]. split.
        { intros [|i] m ds' wa' wb Hi Hb.
          - injection Hi as <- <- <-. injection Hb as <-.
            exists (length (heap w)), wq, w1. rewrite Hpos. done.
          - by apply (Hchain i m ds' wa' wb). }
        cbn [List.filter snd]. rewrite Hpos.
        split.
        { rewrite dict_set_fresh; [apply Hfresh; left|]. by rewrite -app_assoc. }
        split.
        { intros q d Hd. apply Hheap. cbn [wa heap]. by apply Hkeep. }
        split; [|by constructor].
        rewrite Hsaved. cbn [wa files map fst snd]. rewrite Hfiles -app_assoc.
        do 3 f_equal. unfold dataset_json. do 5 f_equal. unfold load.
        rewrite Hparams. destruct Hsome as [d Hd].
        rewrite Hd (Hheap _ d) //.
      * intros m Hm. rewrite dict_set_fresh; [apply Hfresh; left|].
        unfold dict_keys. rewrite fmap_app not_elem_of_app. split.
        -- apply Hfresh. by right.
        -- cbn. intros ->%list_elem_of_singleton. done.
    + apply IH in Hrun as (steps & Hnames & Hlast & Hchain & -> & Hheap & Hsaved & Hall);
        [|done|].
      * exists ((market, ds, w1) :: steps). cbn [fmap list_fmap fst snd].
        split; [by rewrite -Hnames|]. split; [done|]. split.
        { intros [|i] m ds' wa' wb Hi Hb.
          - injection Hi as <- <- <-. injection Hb as <-.
            exists (length (heap w)), wq, w1. rewrite Hpos. done.
          - by apply (Hchain i m ds' wa' wb). }
        cbn [List.filter snd]. rewrite Hpos.
        split; [done|]. split; [intros q d Hd; by apply Hheap, Hkeep|].
        split; [by rewrite Hsaved Hfiles | by constructor].
      * intros m Hm. apply Hfresh. by right.
Qed.

(** X16: [fetch_announcements] and [fetch_credit_rating] take the markets
    one after the other, each with a new [params] dict holding the market,
    and return exactly the markets whose fetch brought at least one
    record, in the order of the markets, each with what its fetch
    returned. They have then written exactly one file per entry,
    [<prefix><market>_all.json] in the output directory, holding the
    entry's dataset; a market without records has neither an entry nor a
    file. Below, [steps] lists for each market the dataset fetched for it
    and the world that its turn of the loop leaves. *)
Theorem market_fetchers_save_what_they_return (server : remote) (now : string)
    (fuel : nat) (w : world) (res : dict dataset) (w' : world) :
  (fetch_announcements server now fuel w = Some (Returned res, w') ->
   exists steps : list (string * dataset * world),
     steps.*1.*1 = ["equity"; "sme"; "debt"; "mf"]
     /\ last (w :: steps.*2) = Some w'
     /\ (forall i m ds wa wb,
           steps !! i = Some (m, ds, wa) -> (w :: steps.*2) !! i = Some wb ->
           exists q wq w1,
             alloc [("market", PStr m)] wb = Some (Returned q, wq)
             /\ fetch_all_pages server now fuel "/announcements" (Some q) wq
                = Some (Returned ds, w1)
             /\ if 0 <? total_records ds
                then save_to_json ds ("announcements_" +:+ m +:+ "_all.json") w1
                     = Some (Returned tt, wa)
                else wa = w1)
     /\ Forall (fun md => total_records md.2 = Z.of_nat (length (data md.2))) steps.*1
     /\ res = List.filter (fun md => 0 <? total_records md.2) steps.*1
     /\ files w'
        = files w
          ++ map (fun md => ("fetched_data/announcements_" +:+ md.1 +:+ "_all.json",
                             dataset_json w' md.2))
                 res)
  /\ (fetch_credit_rating server now fuel w = Some (Returned res, w') ->
      exists steps : list (string * dataset * world),
        steps.*1.*1 = ["equity"; "sme"]
        /\ last (w :: steps.*2) = Some w'
        /\ (forall i m ds wa wb,
              steps !! i = Some (m, ds, wa) -> (w :: steps.*2) !! i = Some wb ->
              exists q wq w1,
                alloc [("market", PStr m)] wb = Some (Returned q, wq)
                /\ fetch_all_pages server now fuel "/credit-rating" (Some q) wq
                   = Some (Returned ds, w1)
                /\ if 0 <? total_records ds
                   then save_to_json ds ("credit_rating_" +:+ m +:+ "_all.json") w1
                        = Some (Returned tt, wa)
                   else wa = w1)
        /\ Forall (fun md => total_records md.2 = Z.of_nat (length (data md.2))) steps.*1
        /\ res = List.filter (fun md => 0 <? total_records md.2) steps.*1
        /\ files w'
           = files w
             ++ map (fun md => ("fetched_data/credit_rating_" +:+ md.1 +:+ "_all.json",
                                dataset_json w' md.2))
                    res).
Proof.
  split; intros Hrun.
  - apply fetch_markets_steps in Hrun
      as (steps & Hnames & Hlast & Hchain & -> & _ & Hfiles & Hall).
    + exists steps. cbn [app] in Hfiles |- *. done.
    + apply (bool_decide_unpack _). vm_compute. exact I.
    + intros m _. apply not_elem_of_nil.
  - apply fetch_markets_steps in Hrun
      as (steps & Hnames & Hlast & Hchain & -> & _ & Hfiles & Hall).
    + exists steps. cbn [app] in Hfiles |- *. done.
    + apply (bool_decide_unpack _). vm_compute. exact I.
    + intros m _. apply not_elem_of_nil.
Qed.

Lemma market_fetchers_save_what_they_return_witness :
  exists res w',
    fetch_credit_rating Samples.equity_only Samples.noon 4 Samples.no_world
    = Some (Returned res, w')
    /\ dict_keys res = ["equity"]
    /\ (files w').*1 = ["fetched_data/credit_rating_equity_all.json"]
    /\ exists steps : list (string * dataset * world),
         steps.*1.*1 = ["equity"; "sme"]
         /\ res = List.filter (fun md => 0 <? total_records md.2) steps.*1.
Proof.
  assert (exists res w',
            fetch_credit_rating Samples.equity_only Samples.noon 4 Samples.no_world
            = Some (Returned res, w')
            /\ dict_keys res = ["equity"]
            /\ (files w').*1 = ["fetched_data/credit_rating_equity_all.json"])
    as (res & w' & Hrun & Hkeys & Hwritten).
  { vm_compute. eexists _, _. split; [reflexivity|]. split; reflexivity. }
  exists res, w'. split; [exact Hrun|]. split; [exact Hkeys|]. split; [exact Hwritten|].
  destruct (market_fetchers_save_what_they_return Samples.equity_only Samples.noon 4
              Samples.no_world res w') as [_ Hcredit].
  destruct (Hcredit Hrun) as (steps & Hnames & _ & _ & _ & Hres & _).
  exists steps. split; [exact Hnames | exact Hres].
Defined.

Lemma values_sum_bools (values : list pyval) :
  Forall (fun v => exists b, v = PBool b) values ->
  forall acc,
    exists n,
      values_sum acc values = Some n
      /\ acc <= n
      /\ (n = acc <-> PBool true ∉ values).
Proof.
  induction 1 as [|v values [b ->] _ IH]; intros acc.
  - exists acc. split; [done|]. split; [lia|]. split; [intros _; apply not_elem_of_nil|done].
  - cbn [values_sum]. destruct (IH (acc + (if b then 1 else 0))) as (n & -> & Hle & Hiff).
    exists n. split; [done|]. rewrite not_elem_of_cons.
    destruct b.
    + split; [lia|]. split; [lia | intros [? _]; done].
    + rewrite Z.add_0_r in Hle, Hiff. split; [done|]. rewrite Hiff.
      split; [by split | by intros [_ ?]].
Qed.

Lemma check_health_ends (server : remote) (user : keyboard) (w : world) :
  exists r, check_health server user w = Some (r, send_health w).
Proof. unfold check_health. destruct user; by eexists. Qed.

(** X17: [check_health] makes one request, to [/health], and nothing
    else. When the user interrupts the request, the [KeyboardInterrupt]
    leaves the function. Otherwise it says no when the request fails. When
    the response, whatever its status code, is an object whose [monitors]
    are all truth values, it says yes if a monitor is ready, without
    asking; if none is ready it asks: it says yes exactly for [y] or [Y],
    no for any other line and at the end of input, and an interrupt at the
    prompt leaves the function. *)
Theorem check_health_decision (server : remote) (user : keyboard) (w : world) :
  exists r,
    check_health server user w = Some (r, send_health w)
    /\ (user = InterruptsRequest -> r = Raised)
    /\ (forall answer,
          user = Answers answer ->
          (server (BASE_URL +:+ "/health") [] = ConnectionError -> r = Returned false)
          /\ (forall status_code health monitors,
                server (BASE_URL +:+ "/health") []
                = Response status_code (Some (PDict health)) ->
                dict_get "monitors" health = Some (PDict monitors) ->
                Forall (fun v => exists b, v = PBool b) (dict_values monitors) ->
                (PBool true ∈ dict_values monitors -> r = Returned true)
                /\ (PBool true ∉ dict_values monitors ->
                    r = match answer with
                        | Line user_input => Returned (bool_decide (lower user_input = "y"))
                        | EndOfInput => Returned false
                        | Interrupt => Raised
                        end))).
Proof.
  destruct user as [|answer].
  { eexists. split; [reflexivity|]. split; [done|]. intros answer [=]. }
  eexists. split; [reflexivity|]. split; [intros [=]|].
  intros answer' [= <-]. split.
  - by intros ->.
  - intros code health monitors -> Hmon Hbools.
    unfold dict_get_default. rewrite Hmon. cbn [default from_option id].
    destruct (values_sum_bools _ Hbools 0) as (n & -> & Hle & Hiff).
    destruct (n =? 0) eqn:Hn.
    + apply Z.eqb_eq in Hn. split.
      * intros Hin. by apply Hiff in Hn.
      * intros _. destruct answer as [s| |]; [|done..].
        f_equal. destruct (String.eqb (lower s) "y") eqn:E.
        -- apply String.eqb_eq in E. by rewrite bool_decide_true.
        -- apply String.eqb_neq in E. by rewrite bool_decide_false.
    + apply Z.eqb_neq in Hn. split; [done|]. intros Hnone. by apply Hiff in Hnone.
Qed.

Lemma check_health_decision_witness :
  exists r,
    check_health
      (Samples.site [("event_calendar", PBool false); ("announcements", PBool false)])
      (Answers (Line "Y")) Samples.no_world
    = Some (r, send_health Samples.no_world)
    /\ r = Returned true.
Proof.
  destruct (check_health_decision
              (Samples.site [("event_calendar", PBool false); ("announcements", PBool false)])
              (Answers (Line "Y")) Samples.no_world) as (r & Hrun & _ & Hdecide).
  exists r. split; [exact Hrun|].
  destruct (Hdecide (Line "Y") eq_refl) as [_ Hreply].
  destruct (Hreply 200 _ [("event_calendar", PBool false); ("announcements", PBool false)]
              eq_refl eq_refl) as [_ Hasked].
  - repeat constructor; by eexists.
  - apply Hasked.
    intros Hin. apply list_elem_of_In in Hin. cbn in Hin.
    destruct Hin as [Hin | [Hin | []]]; discriminate Hin.
Defined.

(** ** The whole run *)

Lemma loop_body_requests server endpoint l st w :
  exists rq, requests (loop_body server endpoint l st w).2 = requests w ++ [rq].
Proof. unfold loop_body. repeat case_match; by eexists. Qed.

Lemma while_loop_requests server endpoint l fuel :
  forall st w r w',
    while_loop server fuel endpoint l st w = Some (r, w') ->
    exists sent, requests w' = requests w ++ sent.
Proof.
  induction fuel as [|fuel IH]; intros st w r w' Hrun; [done|].
  cbn [while_loop] in Hrun.
  destruct (int_le (page st) (total_pages st)) as [[|]|];
    [|injection Hrun as <- <-; exists []; by rewrite app_nil_r..].
  destruct (loop_body_requests server endpoint l st w) as [rq Hbody].
  destruct (loop_body server endpoint l st w) as [[[|] st1] w1]; cbn [snd] in Hbody.
  - apply IH in Hrun as [sent ->]. exists (rq :: sent).
    by rewrite Hbody -app_assoc.
  - injection Hrun as <- <-. eauto.
Qed.

(** Composing commands that only add requests gives one that only adds
    requests. *)
Lemma bind_grows {A B} (m : M A) (k : A -> M B) :
  (forall w r w', m w = Some (r, w') -> exists sent, requests w' = requests w ++ sent) ->
  (forall a w r w', k a w = Some (r, w') -> exists sent, requests w' = requests w ++ sent) ->
  forall w r w',
    bind m k w = Some (r, w') -> exists sent, requests w' = requests w ++ sent.
Proof.
  intros Hm Hk w r w'. unfold bind.
  destruct (m w) as [[[a|] w1]|] eqn:E; [| |done].
  - intros Hrun. apply Hm in E as [s1 E]. apply Hk in Hrun as [s2 ->].
    exists (s1 ++ s2). by rewrite E app_assoc.
  - intros [= <- <-]. by eapply Hm.
Qed.

Lemma ret_grows {A} (a : A) w r w' :
  ret a w = Some (r, w') -> exists sent, requests w' = requests w ++ sent.
Proof. intros [= <- <-]. exists []. by rewrite app_nil_r. Qed.

Lemma write_file_grows path content w r w' :
  write_file path content w = Some (r, w') ->
  exists sent, requests w' = requests w ++ sent.
Proof. intros [= <- <-]. exists []. by rewrite app_nil_r. Qed.

Lemma fetch_all_pages_grows server now fuel endpoint caller w r w' :
  fetch_all_pages server now fuel endpoint caller w = Some (r, w') ->
  exists sent, requests w' = requests w ++ sent.
Proof.
  unfold fetch_all_pages. apply bind_grows.
  - destruct caller; [apply ret_grows|].
    intros w0 r0 w1 [= <- <-]. exists []. by rewrite app_nil_r.
  - intros q. apply bind_grows; [apply while_loop_requests|].
    intros st. apply ret_grows.
Qed.

Lemma save_to_json_grows ds filename w r w' :
  save_to_json ds filename w = Some (r, w') ->
  exists sent, requests w' = requests w ++ sent.
Proof. apply write_file_grows. Qed.

Lemma fetch_markets_grows server now fuel endpoint file_prefix markets :
  forall results w r w',
    fetch_markets server now fuel endpoint file_prefix markets results w = Some (r, w') ->
    exists sent, requests w' = requests w ++ sent.
Proof.
  induction markets as [|market markets IH]; intros results; [apply ret_grows|].
  cbn [fetch_markets]. apply bind_grows.
  - intros w0 r0 w1 [= <- <-]. exists []. by rewrite app_nil_r.
  - intros q. apply bind_grows; [apply fetch_all_pages_grows|].
    intros ds. destruct (0 <? total_records ds); [|apply IH].
    apply bind_grows; [apply save_to_json_grows|]. intros _. apply IH.
Qed.

Lemma fetch_everything_grows server now fuel w r w' :
  fetch_everything server now fuel w = Some (r, w') ->
  exists sent, requests w' = requests w ++ sent.
Proof.
  unfold fetch_everything, fetch_event_calendar, fetch_crd, fetch_announcements,
    fetch_credit_rating, create_summary.
  repeat first
    [ apply fetch_all_pages_grows
    | apply fetch_markets_grows
    | apply save_to_json_grows
    | apply write_file_grows
    | apply ret_grows
    | apply bind_grows; [|intros ?] ].
Qed.

(** X18: [main] fetches only past the health check, and it lets out only
    what happens before the [try] block. When the output directory cannot
    be made, the [OSError] leaves [main] before any request. Otherwise the
    first request is the health request. When [check_health] is
    interrupted, the interrupt leaves [main]; when it says no, [main]
    returns; in both cases that request is all there was: no data endpoint
    is asked and no file is written. When it says yes, the four fetches
    and the summary run from there and [main] returns, also when one of
    them raises. *)
Theorem main_health_gate (server : remote) (now : string) (makedirs_ok : bool)
    (user : keyboard) (fuel : nat) (w : world) (r : result unit) (w' : world) :
  main server now makedirs_ok user fuel w = Some (r, w') ->
  (makedirs_ok = false -> r = Raised /\ w' = w)
  /\ (makedirs_ok = true ->
      (exists more, requests w' = requests w ++ (BASE_URL +:+ "/health", []) :: more)
      /\ (check_health server user w = Some (Raised, send_health w) ->
          r = Raised /\ w' = send_health w)
      /\ (check_health server user w = Some (Returned false, send_health w) ->
          r = Returned tt /\ w' = send_health w)
      /\ (check_health server user w = Some (Returned true, send_health w) ->
          r = Returned tt
          /\ exists r', fetch_everything server now fuel (send_health w) = Some (r', w'))).
Proof.
  unfold main, create_output_dir, bind. intros Hrun.
  destruct makedirs_ok.
  2: { injection Hrun as <- <-. split; [done|]. intros [=]. }
  split; [intros [=]|]. intros _.
  destruct (check_health_ends server user w) as [ready Hhealth].
  rewrite Hhealth in Hrun |- *. destruct ready as [[|]|].
  - destruct (fetch_everything server now fuel (send_health w)) as [[r' w1]|] eqn:Hall;
      [|done].
    injection Hrun as <- <-. split; [|split; [done|split; [done | eauto]]].
    apply fetch_everything_grows in Hall as [sent ->].
    exists sent. cbn [send_health requests]. by rewrite -app_assoc.
  - cbn [ret] in Hrun. injection Hrun as <- <-.
    split; [by exists []|]. split; [done|]. split; [done|]. intros [=].
  - injection Hrun as <- <-.
    split; [by exists []|]. split; [done|]. split; intros [=].
Qed.

Lemma main_health_gate_witness :
  exists w',
    main (Samples.site [("event_calendar", PBool false)]) Samples.noon true
      (Answers (Line "n")) 5 Samples.no_world
    = Some (Returned tt, w')
    /\ w' = send_health Samples.no_world.
Proof.
  eexists. split; [reflexivity|].
  destruct (main_health_gate (Samples.site [("event_calendar", PBool false)])
              Samples.noon true (Answers (Line "n")) 5 Samples.no_world _ _ eq_refl)
    as [_ Hgate].
  destruct (Hgate eq_refl) as (_ & _ & Hno & _).
  apply Hno. reflexivity.
Defined.

Lemma fetch_and_save server now fuel endpoint filename w ds w' :
  (ds <- fetch_all_pages server now fuel endpoint None ;;
   save_to_json ds filename ;;;
   ret ds) w = Some (Returned ds, w') ->
  files w' = files w ++ [(OUTPUT_DIR +:+ "/" +:+ filename, dataset_json w' ds)]
  /\ total_records ds = Z.of_nat (length (data ds)).
Proof.
  unfold bind. intros Hrun.
  destruct (fetch_all_pages server now fuel endpoint None w)
    as [[[ds1|] w1]|] eqn:Hfetch; [|done..].
  cbn [save_to_json write_file ret] in Hrun. injection Hrun as <- <-.
  apply fetch_all_pages_frame in Hfetch as [Hfiles Hlen].
  cbn [files]. by rewrite Hfiles.
Qed.

(** The summary of a run in which all four fetches returned. *)
Lemma build_summary_all now (ec c : dataset) (an cr : dict dataset) :
  NoDup (dict_keys an) -> NoDup (dict_keys cr) ->
  let entry (nd : string * dataset) :=
    (nd.1, {| Summary.records := total_records nd.2;
              Summary.file := nd.1 +:+ "_all.json" |}) in
  let present :=
    ("event_calendar", ec) :: map (fun md => ("announcements_" +:+ md.1, md.2)) an
    ++ ("crd", c) :: map (fun md => ("credit_rating_" +:+ md.1, md.2)) cr in
  let s := build_summary now
             {| event_calendar := Some ec; announcements := Some an;
                crd := Some c; credit_rating := Some cr |} in
  Summary.datasets s = map entry present
  /\ NoDup (present.*1)
  /\ Summary.total_files s = Z.of_nat (length present)
  /\ Summary.total_records s
     = fold_right Z.add 0 (map (fun nd => total_records nd.2) present).
Proof.
  intros Han Hcr entry present s.
  assert (NoDup (present.*1)) as Hnd.
  { unfold present. rewrite fmap_cons fmap_app fmap_cons !prefixed_keys.
    apply (summary_names_NoDup ["event_calendar"] ["crd"]); try done.
    - by intros x ->%list_elem_of_singleton.
    - apply NoDup_singleton.
    - by intros x ->%list_elem_of_singleton.
    - apply NoDup_singleton. }
  assert (s = fold_left (fun s it => Summary.add it.1 (it.1 +:+ "_all.json") it.2 s)
                (map (fun nd => (nd.1, total_records nd.2)) present)
                {| Summary.fetch_timestamp := now;
                   Summary.api_url := BASE_URL;
                   Summary.total_files := 0;
                   Summary.total_records := 0;
                   Summary.datasets := [] |}) as ->.
  { unfold s, build_summary, present.
    cbn [event_calendar announcements crd credit_rating].
    rewrite map_cons map_app map_cons.
    change (?x :: ?l ++ ?y :: ?l') with ([x] ++ l ++ [y] ++ l').
    rewrite !fold_left_app.
    rewrite !add_one_fold !add_markets_fold. rewrite !map_map. reflexivity. }
  assert ((map (fun nd : string * dataset => (nd.1, total_records nd.2)) present).*1
          = present.*1) as Hkeys.
  { clear. induction present as [|nd present IH]; [done|]. cbn. by f_equal. }
  rewrite summary_add_all.
  { cbn [Summary.datasets]. unfold dict_keys at 1. cbn [fmap list_fmap app].
    by rewrite Hkeys. }
  cbn [Summary.datasets Summary.total_files Summary.total_records app].
  clearbody present. split; [by rewrite map_map|]. split; [done|].
  split; [by rewrite length_map|].
  rewrite Z.add_0_l. f_equal. clear.
  induction present as [|nd present IH]; [done|]. cbn. by f_equal.
Qed.

Lemma market_entries_match (endpoint prefix : string) (kept : dict dataset)
    (saved : list (string * pyval)) :
  Forall (fun md => 0 < total_records md.2
                    /\ total_records md.2 = Z.of_nat (length (data md.2))
                    /\ source md.2 = endpoint)
         kept ->
  Forall2 (fun md f =>
             f.1 = OUTPUT_DIR +:+ "/" +:+ prefix +:+ md.1 +:+ "_all.json"
             /\ exists w0, f.2 = dataset_json w0 md.2)
          kept saved ->
  Forall2 (fun (e : string * Summary.entry) f =>
             f.1 = OUTPUT_DIR +:+ "/" +:+ Summary.file e.2
             /\ exists w0 ds,
                  f.2 = dataset_json w0 ds
                  /\ total_records ds = Summary.records e.2
                  /\ Summary.records e.2 = Z.of_nat (length (data ds)))
          (map (fun md => (prefix +:+ md.1,
                           {| Summary.records := total_records md.2;
                              Summary.file := (prefix +:+ md.1) +:+ "_all.json" |}))
               kept)
          saved.
Proof.
  intros Hall Hmatch. induction Hmatch as [|md f kept saved [Hname [w0 Hf]] _ IH];
    [constructor|].
  apply Forall_cons in Hall as [(_ & Hlen & _) Hall].
  cbn [map]. constructor; [|by apply IH].
  cbn [fst snd Summary.file Summary.records]. split.
  - by rewrite Hname append_assoc.
  - eauto.
Qed.

(** X19: the summary names the files of the run. When the four fetches
    and [create_summary] of [main] all return, the files written are the
    data files followed by [summary.json], and the entries of the summary
    stand one to one, in order, for the data files: each entry's file is
    the name of its data file and its record count is the [total_records]
    of the dataset saved there, which is the number of its records;
    [total_files] is the number of data files and [total_records] the sum
    of the entries' counts. The event calendar and the CRD always have an
    entry, a market only with records. *)
Theorem summary_matches_files (server : remote) (now : string) (fuel : nat)
    (w : world) (s : Summary.t) (w' : world) :
  fetch_everything server now fuel w = Some (Returned s, w') ->
  exists saved,
    files w' = files w ++ saved ++ [("fetched_data/summary.json", Summary.to_json s)]
    /\ Forall2 (fun (e : string * Summary.entry) f =>
                  f.1 = OUTPUT_DIR +:+ "/" +:+ Summary.file e.2
                  /\ exists w0 ds,
                       f.2 = dataset_json w0 ds
                       /\ total_records ds = Summary.records e.2
                       /\ Summary.records e.2 = Z.of_nat (length (data ds)))
               (Summary.datasets s) saved
    /\ NoDup (dict_keys (Summary.datasets s))
    /\ Summary.total_files s = Z.of_nat (length saved)
    /\ Summary.total_records s
       = fold_right Z.add 0 (map Summary.records (dict_values (Summary.datasets s)))
    /\ is_Some (dict_get "event_calendar" (Summary.datasets s))
    /\ is_Some (dict_get "crd" (Summary.datasets s)).
Proof.
  unfold fetch_everything. unfold bind at 1. intros Hrun.
  destruct (fetch_event_calendar server now fuel w) as [[[ec|] w1]|] eqn:Hec; [|done..].
  unfold bind at 1 in Hrun.
  destruct (fetch_announcements server now fuel w1) as [[[an|] w2]|] eqn:Han; [|done..].
  unfold bind at 1 in Hrun.
  destruct (fetch_crd server now fuel w2) as [[[c|] w3]|] eqn:Hc; [|done..].
  unfold bind at 1 in Hrun.
  destruct (fetch_credit_rating server now fuel w3) as [[[cr|] w4]|] eqn:Hcr; [|done..].
  unfold create_summary, bind in Hrun. cbn [write_file ret] in Hrun.
  injection Hrun as <- <-. cbn [files].
  apply fetch_and_save in Hec as [Hf1 Hlen1].
  apply fetch_and_save in Hc as [Hf3 Hlen3].
  apply fetch_markets_kept in Han
    as (kan & san & -> & Hsub2 & Hall2 & Hf2 & Hm2);
    [|apply (bool_decide_unpack _); vm_compute; exact I
     |intros m _; apply not_elem_of_nil].
  apply fetch_markets_kept in Hcr
    as (kcr & scr & -> & Hsub4 & Hall4 & Hf4 & Hm4);
    [|apply (bool_decide_unpack _); vm_compute; exact I
     |intros m _; apply not_elem_of_nil].
  cbn [app] in *.
  assert (NoDup (dict_keys kan)) as Hnd2.
  { eapply sublist_NoDup; [|exact Hsub2].
    apply (bool_decide_unpack _). vm_compute. exact I. }
  assert (NoDup (dict_keys kcr)) as Hnd4.
  { eapply sublist_NoDup; [|exact Hsub4].
    apply (bool_decide_unpack _). vm_compute. exact I. }
  destruct (build_summary_all now ec c kan kcr Hnd2 Hnd4)
    as (Hds & Hnames & Hcount & Hsum).
  set (s := build_summary now _) in *.
  exists ([("fetched_data/event_calendar_all.json", dataset_json w1 ec)] ++ san
          ++ [("fetched_data/crd_all.json", dataset_json w3 c)] ++ scr).
  split.
  { rewrite Hf4 Hf3 Hf2 Hf1. by rewrite -!app_assoc. }
  rewrite Hds.
  set (present := ("event_calendar", ec)
                  :: map (fun md : string * dataset => ("announcements_" +:+ md.1, md.2)) kan
                  ++ ("crd", c)
                     :: map (fun md : string * dataset => ("credit_rating_" +:+ md.1, md.2))
                          kcr) in *.
  set (entry := fun nd : string * dataset =>
                  (nd.1, {| Summary.records := total_records nd.2;
                            Summary.file := nd.1 +:+ "_all.json" |})).
  assert (forall l, dict_keys (map entry l) = l.*1) as Hkeys.
  { clear. intros l. induction l as [|nd l IH]; [done|]. cbn. by f_equal. }
  split.
  { unfold present. rewrite map_cons map_app map_cons.
    change (?x :: ?l ++ ?y :: ?l') with ([x] ++ l ++ [y] ++ l').
    repeat apply Forall2_app.
    - constructor; [|constructor]. cbn [entry fst snd Summary.file Summary.records].
      split; [done|]. eauto.
    - rewrite map_map. by eapply market_entries_match.
    - constructor; [|constructor]. cbn [entry fst snd Summary.file Summary.records].
      split; [done|]. eauto.
    - rewrite map_map. by eapply market_entries_match. }
  split; [by rewrite Hkeys|].
  split.
  { rewrite Hcount. unfold present.
    rewrite !length_cons !length_app !length_cons !length_map.
    apply Forall2_length in Hm2, Hm4. cbn [length]. lia. }
  split.
  { rewrite Hsum. unfold dict_values. f_equal. clear.
    induction present as [|nd present IH]; [done|]. cbn. by f_equal. }
  unfold present. rewrite map_cons map_app map_cons.
  split; [by eexists|].
  change (entry ("event_calendar", ec) :: ?l ++ ?l')
    with ((entry ("event_calendar", ec) :: l) ++ l').
  rewrite dict_get_app_r.
  { change (entry ("event_calendar", ec) :: map entry ?l)
      with (map entry (("event_calendar", ec) :: l)).
    rewrite Hkeys fmap_cons prefixed_keys. cbn [fst].
    rewrite not_elem_of_cons. split; [done|].
    intros (m & Hm & _)%list_elem_of_fmap. discriminate Hm. }
  cbn [dict_get String.eqb entry fst]. by eexists.
Qed.

Lemma summary_matches_files_witness :
  exists s w' saved,
    fetch_everything Samples.two_pages Samples.noon 4 Samples.no_world
    = Some (Returned s, w')
    /\ files w' = saved ++ [("fetched_data/summary.json", Summary.to_json s)]
    /\ Summary.total_files s = Z.of_nat (length saved).
Proof.
  assert (exists s w',
            fetch_everything Samples.two_pages Samples.noon 4 Samples.no_world
            = Some (Returned s, w')) as (s & w' & Hrun).
  { vm_compute. eexists _, _. reflexivity. }
  destruct (summary_matches_files Samples.two_pages Samples.noon 4 Samples.no_world
              s w' Hrun) as (saved & Hfiles & _ & _ & Hcount & _).
  exists s, w', saved. split; [exact Hrun|]. split; [exact Hfiles | exact Hcount].
Defined.
